(* ===== verification/_CoqProject ===== *)
-Q . S2P
Prelude.v
JsValue.v
IssueModel.v
Store.v
Handlers.v
Trace.v
FunctionalTests.v
Connection.v
Listing.v
Replies.v
Lifecycle.v
