(* ===== verification/Prelude.v ===== *)
(** * IssueTracker: a verification development of [src/routes/api.js]

    ** The program

    [src/routes/api.js] registers one Express route,
    [/api/issues/:project], with four handlers in front of a Mongoose model
    [Issue] ([models/issues.js], not among the sources; its schema is the
    data model of the specification, section 3):
    - GET lists the issues matching the query string plus the path's
      project ([Issue.find]);
    - POST validates three required fields and creates an issue
      ([new Issue(...).save()]);
    - PUT deletes the falsy entries of the body, sets [project] and
      [updated_on], and updates by id ([Issue.findByIdAndUpdate]);
    - DELETE deletes by id ([Issue.findByIdAndDelete]).
    The handlers share no state but the collection.  A handler replies with
    [res.send]/[res.json]; an error passed to a store callback is logged and
    the request is never answered.  [src/tests/2_functional-tests.js] runs
    fourteen requests in order against the server and checks the replies.

    ** The files

    - [Prelude.v] (this file): the hint databases [issue] and [issue_rw],
      the scope [issue_scope], the tactics [inv_bind] and [step_case], and
      lemmas on lists and options ([fold_left_invariant], [filter_filter],
      [option_bind_Some_inv], [forallb_Permutation], [forallb_map]).
    - [JsValue.v]: JavaScript values ([jsval]), truthiness ([truthy] is
      [!!x], [js_or] is [x || y]), plain objects as insertion-ordered
      association lists ([obj_get], [obj_set], [obj_delete], [obj_keys]), the
      [for ... in] deletion loop of PUT ([drop_falsy], lines 92-96), ObjectId
      hex strings ([oid_to_hex], [oid_of_hex]), the class [JsEngine] (date
      parsing and printing, left abstract) and [JSON.stringify] ([to_json]).
    - [IssueModel.v]: the document ([issue]), the schema ([schema_path]), the
      casts Mongoose applies to request values ([cast]), the constructor
      with defaults and required-field validation ([new_issue]), the [$set]
      update ([cast_update], [apply_update]) and find filters ([cast_filter],
      [matches]); and [decimal_engine], a [JsEngine] for concrete runs.
    - [Store.v]: the store operations the handlers call, as a reference
      semantics on a [gmap] from ObjectIds to documents ([ref_find],
      [ref_save], [ref_update], [ref_delete]); the class [IssueStore] of the
      operations the handlers call and the class [IssueStoreSpec] of their
      laws, which say each operation refines the reference semantics
      ([find] up to permutation, [save] under a fresh id of the store's
      choosing); and [MemStore], an in-memory store that is an instance.
    - [Handlers.v]: [get_handler], [post_handler], [put_handler],
      [delete_handler] (lines 15-43, 45-79, 81-113, 115-131), the nine-field
      projection [issue_view], and the router [api]; every theorem is proved
      against any [IssueStore].
    - [Trace.v]: runs of requests ([run]) and reachable stores
      ([reachable], a step relation closed under [api]); the store invariant.
    - [FunctionalTests.v]: each test as its request and its chai assertions
      ([suite]), run by [run_suite].
    - [Connection.v]: lines 3-13: [mySecret] reads [MONGO_URI], [connect]
      is [mongoose.connect(...).catch(log)], [mount] is [module.exports]:
      the route served over the connection ([server]).  Through a failed
      connection every store call fails (Mongoose buffers it until its
      timeout): [conn_store] wraps any store, and is an [IssueStoreSpec]
      instance on a live connection.
    - [Listing.v]: the listing of the [find] callback ([listing], lines
      23-40), replies compared up to the order of a listing ([≡], an
      [Equivalence] with [Proper] instances for [listing] and the chai
      assertions), and bounds on the length of a listing.
    - [Replies.v]: when a request is answered ([request_casts]) and what
      goes on the wire ([on_wire]: [res.send] of a string is text, the
      rest JSON), checked against the interface table ([reply_shape]).
    - [Lifecycle.v]: requests composed as a client composes them (the id
      read from a POST reply sent back in a PUT), with the bound on ids
      ([keys_bounded]) a concrete run discharges.

    ** The theorems

    - Functional behaviour of every handler on every branch: PUT
      ([put_handler_updated], [put_handler_not_found], [put_handler_no_fields],
      [put_handler_missing_id], [put_handler_malformed_id]), POST
      ([post_handler_created], [post_handler_missing],
      [post_handler_uncastable]), GET ([get_handler_spec],
      [get_handler_listed]), DELETE ([delete_handler_deleted],
      [delete_handler_not_found], [delete_handler_missing_id],
      [delete_handler_malformed_id]); a PUT whose field cannot be cast is
      rejected before the id is looked up ([put_handler_uncastable_field]).
    - Equivalence: the [for ... in] loop is a filter on truthy values
      ([drop_falsy_spec]).
    - Refinement: each handler is proved against the class
      [IssueStoreSpec], whose laws say every store operation refines the
      reference semantics of [Store.v]; the in-memory store and a live
      connection are instances ([MemStore.mem_issue_store_spec],
      [conn_store_spec]).
    - Invariant: every reachable store keeps each issue under its own
      [_id] with non-empty required fields ([reachable_inv]).
    - Round trip: an issue created by POST is listed by a GET on the same
      project whose query it satisfies ([post_then_get]).
    - Divergences from the specification: malformed ids get no reply
      (PUT, DELETE); [open: false] is deleted by the [for ... in] loop, so
      it cannot close an issue ([drop_falsy_spec], [put_handler_no_fields]);
      a truthy [created_on] in a PUT body overwrites the creation date
      ([put_handler_updated] holds for every schema path but [_id],
      [project] and [updated_on]); DELETE ignores the project
      ([delete_handler_deleted] holds for any path project).
    - The functional tests: the three GET tests pass on a store exactly
      when it holds a matching [apitest] issue ([get_tests_on_any_store],
      by setoid rewriting with the listing's [Proper] instances).
    - The connection: when [MONGO_URI] is unset or unreachable, no request
      changes the database and only validation errors are answered
      ([mount_failed_drops]).
    - Bounds: a GET listing has between one and [size] issues
      ([get_listing_bounds]).
    - Liveness and type: every well-formed request whose values cast is
      answered ([api_answers]); every reply has the form of the
      specification's interface table ([api_reply_shape]).
    - Composition: the id of a POST reply names the created issue for a
      later PUT ([post_then_put]), given 96-bit ids.

    ** Modelling choices, bounds and what is not modelled

    - Time is an explicit argument [now : Z] of each request (milliseconds);
      [Date.now] and [new Date()] read it.  JavaScript numbers are integers
      ([Z]); only their truthiness and [toString] matter here.
    - ObjectIds are numbers below [16^24] (96 bits); only 24-hex-digit
      strings cast to ids.  The casts are narrower than Mongoose's in
      these places (see [IssueModel.v]): [cast_objectid] rejects
      12-character strings, arrays whose [toString] is a valid id and
      objects whose [_id] is one; [cast_string] rejects objects with a
      non-empty string [_id]; [cast_date] rejects one-element arrays and
      accepts numbers beyond the 8.64e15 ms range of [Date].  The theorems
      on casts are about these casts.  Query operators ([?open[$ne]=x]) are not modelled: a
      query value that is an object fails the query.
    - A store fails exactly where the reference semantics fails (cast
      errors, validation, duplicate keys, immutable [_id]); a failed
      connection fails every call ([Connection.v]).  Faults of a live
      connection, logging, the Express server, its router and the HTTP
      transport are not modelled: they are external collaborators
      (specification, section 1) and logging has no effect on replies.
    - No fuel is needed: every loop of the code ([for ... in], [forEach])
      runs over a finite object or array and is a structural recursion.
    - Mongoose's strict mode drops keys that are not schema paths from
      updates; JavaScript's ordering of integer-like keys before others in
      an object is not modelled (no key of this program is integer-like). *)

From stdpp Require Export base list option strings gmap.
From Stdlib Require Export ZArith.

Declare Scope issue_scope.
Delimit Scope issue_scope with issue.

Create HintDb issue.
Create Rewrite HintDb issue_rw.

(** ** Generic lemmas on lists and options *)

(** Invariant principle for [fold_left]. *)
Lemma fold_left_invariant {A B} (P : A -> Prop) (f : A -> B -> A) (l : list B) (a : A) :
  P a -> (forall x b, In b l -> P x -> P (f x b)) -> P (fold_left f l a).
Proof.
  revert a. induction l as [|b l IH]; intros a Ha Hf; simpl; [done|].
  apply IH; [apply Hf; [left|]; done|].
  intros x c Hc. apply Hf. by right.
Qed.

Lemma filter_filter {A} (f g : A -> bool) (l : list A) :
  List.filter f (List.filter g l) = List.filter (fun x => g x && f x) l.
Proof. induction l as [|x l IH]; simpl; [done|]. by destruct (g x); simpl; rewrite IH. Qed.

Lemma forallb_Permutation {A} (p : A -> bool) (l1 l2 : list A) :
  l1 ≡ₚ l2 -> forallb p l1 = forallb p l2.
Proof. induction 1; simpl; try congruence. by destruct (p x), (p y). Qed.

Lemma filter_length_le {A} (f : A -> bool) (l : list A) : length (List.filter f l) <= length l.
Proof. induction l as [|x l IH]; simpl; [done|]. destruct (f x); simpl; lia. Qed.

Lemma forallb_map {A B} (p : B -> bool) (f : A -> B) (l : list A) :
  forallb p (map f l) = forallb (fun x => p (f x)) l.
Proof. induction l as [|x l IH]; simpl; [done|]. by rewrite IH. Qed.

Lemma option_bind_Some_inv {A B} (f : A -> option B) (o : option A) (b : B) :
  (o ≫= f) = Some b -> exists a, o = Some a /\ f a = Some b.
Proof. destruct o; simpl; [eauto|done]. Qed.

Lemma option_bind_None_inv {A B} (f : A -> option B) (o : option A) :
  (o ≫= f) = None -> o = None \/ exists a, o = Some a /\ f a = None.
Proof. destruct o; simpl; eauto. Qed.

(** ** Tactics *)

(** Invert a hypothesis [o ≫= f = Some b] into its two components. *)
Ltac inv_bind :=
  repeat match goal with
  | H : (_ ≫= _) = Some _ |- _ =>
      let a := fresh "a" in let Ha := fresh "Ha" in
      apply option_bind_Some_inv in H as (a & Ha & H)
  | H : Some _ = Some _ |- _ => injection H as H
  | H : (_, _) = (_, _) |- _ => injection H as H
  end.

(** Case on the first [if]/[match] of the goal and simplify. *)
Ltac step_case := case_match; simplify_eq/=.
