(* ===== verification/JsValue.v ===== *)
(** * JavaScript values, objects and truthiness

    The handlers of [src/routes/api.js] read request fields out of plain
    JavaScript objects ([req.query], [req.body]), test them with [!x],
    default them with [x || ''], delete falsy entries with a [for ... in]
    loop, and reply with objects built from literals.  This file models the
    values ([jsval]), the objects ([jsobj], insertion-ordered association
    lists with JavaScript's get/set/delete), truthiness, the [for ... in]
    deletion loop of the PUT handler ([drop_falsy]) and its equivalence with
    a filter, ObjectId hex strings, and the JSON serialisation that
    [res.json] applies to a reply. *)

From S2P Require Import Prelude.
From Stdlib Require Import Ascii.

Set Warnings "-register-all".
Local Open Scope string_scope.

(** ** Values *)

(** JavaScript numbers are modelled as integers ([Z]): the handlers only
    test them for truthiness and cast them to strings. *)
Inductive jsval :=
| JUndefined
| JNull
| JBool (b : bool)
| JNum (n : Z)
| JStr (s : string)
| JDate (ms : Z)          (* a [Date] object, milliseconds since the epoch *)
| JOid (id : N)           (* a BSON [ObjectId], a 96-bit number *)
| JArr (vs : list jsval)
| JObj (fs : list (string * jsval)).

(** A plain object: its own enumerable properties in insertion order. *)
Abbreviation jsobj := (list (string * jsval)).

(** [!!v] in JavaScript: [undefined], [null], [false], [0] and [""] are
    falsy, every object (arrays, dates, ids included) is truthy. *)
Definition truthy (v : jsval) : bool :=
  match v with
  | JUndefined | JNull => false
  | JBool b => b
  | JNum n => negb (Z.eqb n 0)
  | JStr s => negb (String.eqb s "")
  | JDate _ | JOid _ | JArr _ | JObj _ => true
  end.

(** [a || b] returns [a] when it is truthy and [b] otherwise. *)
Definition js_or (a b : jsval) : jsval := if truthy a then a else b.

(** ** Objects *)

Fixpoint obj_lookup (o : jsobj) (k : string) : option jsval :=
  match o with
  | [] => None
  | (k', v) :: o' => if String.eqb k k' then Some v else obj_lookup o' k
  end.

(** [o[k]]: a missing property reads as [undefined]. *)
Definition obj_get (o : jsobj) (k : string) : jsval :=
  match obj_lookup o k with Some v => v | None => JUndefined end.

(** [o[k] = v]: an existing property keeps its position, a new one is
    appended. *)
Definition obj_set (k : string) (v : jsval) (o : jsobj) : jsobj :=
  match obj_lookup o k with
  | Some _ => map (fun kv => if String.eqb k kv.1 then (kv.1, v) else kv) o
  | None => (o ++ [(k, v)])%list
  end.

(** [delete o[k]]. *)
Definition obj_delete (k : string) (o : jsobj) : jsobj :=
  List.filter (fun kv => negb (String.eqb k kv.1)) o.

(** [Object.keys(o)]. *)
Definition obj_keys (o : jsobj) : list string := map fst o.

(** An object has each key once. *)
Definition obj_wf (o : jsobj) : Prop := NoDup (obj_keys o).

(** The loop of the PUT handler (api.js, lines 92-96):
    [for (let entry in updateIssue) { if (!updateIssue[entry]) delete updateIssue[entry]; }]
    The keys are enumerated from the object as it was when the loop
    started; a key whose entry is already gone reads as [undefined]. *)
Definition drop_falsy (updateIssue : jsobj) : jsobj :=
  fold_left
    (fun acc entry => if negb (truthy (obj_get acc entry)) then obj_delete entry acc else acc)
    (obj_keys updateIssue) updateIssue.

(** ** ObjectId hex strings *)

Definition hex_chars : string := "0123456789abcdef".

Definition hex_digit (d : N) : ascii :=
  match String.get (N.to_nat d) hex_chars with Some c => c | None => "0"%char end.

(** The [w] low hex digits of [n], most significant first, before [acc]. *)
Fixpoint hex_fixed (w : nat) (n : N) (acc : string) : string :=
  match w with
  | O => acc
  | S w' => hex_fixed w' (N.div n 16) (String (hex_digit (N.modulo n 16)) acc)
  end.

(** [ObjectId.prototype.toHexString]: 24 lower-case hex digits. *)
Definition oid_to_hex (n : N) : string := hex_fixed 24 n "".

Definition hex_val (c : ascii) : option N :=
  let n := N_of_ascii c in
  if (48 <=? n)%N && (n <=? 57)%N then Some (n - 48)%N
  else if (97 <=? n)%N && (n <=? 102)%N then Some (n - 87)%N
  else if (65 <=? n)%N && (n <=? 70)%N then Some (n - 55)%N
  else None.

Fixpoint parse_hex (s : string) (acc : N) : option N :=
  match s with
  | EmptyString => Some acc
  | String c s' => match hex_val c with
                   | Some d => parse_hex s' (acc * 16 + d)%N
                   | None => None
                   end
  end.

(** A string is an ObjectId when it has 24 hex digits (either case). *)
Definition oid_of_hex (s : string) : option N :=
  if Nat.eqb (String.length s) 24 then parse_hex s 0 else None.

(** ** JSON serialisation *)

(** What the JavaScript engine provides that this development leaves
    abstract: parsing a date string ([Date.parse]) and printing a date
    ([Date.prototype.toISOString]). *)
Class JsEngine := {
  date_parse : string -> option Z;
  date_to_iso : Z -> string
}.

Inductive json :=
| JSNull
| JSBool (b : bool)
| JSNum (n : Z)
| JSStr (s : string)
| JSArr (l : list json)
| JSObj (l : list (string * json)).

(** [JSON.stringify] as [res.json] applies it: [undefined] has no JSON
    form, inside an array it becomes [null] and in an object its member is
    omitted; dates and ObjectIds print through their [toJSON]. *)
Fixpoint to_json `{JsEngine} (v : jsval) : option json :=
  match v with
  | JUndefined => None
  | JNull => Some JSNull
  | JBool b => Some (JSBool b)
  | JNum n => Some (JSNum n)
  | JStr s => Some (JSStr s)
  | JDate ms => Some (JSStr (date_to_iso ms))
  | JOid n => Some (JSStr (oid_to_hex n))
  | JArr vs =>
      Some (JSArr ((fix elems (l : list jsval) : list json :=
                     match l with
                     | [] => []
                     | v :: l' => match to_json v with
                                  | Some j => j | None => JSNull end :: elems l'
                     end) vs))
  | JObj fs =>
      Some (JSObj ((fix members (l : list (string * jsval)) : list (string * json) :=
                      match l with
                      | [] => []
                      | (k, v) :: l' => match to_json v with
                                        | Some j => (k, j) :: members l'
                                        | None => members l'
                                        end
                      end) fs))
  end.

(** [JSON.stringify] of an array: each element, [undefined] as [null]. *)
Lemma to_json_arr `{JsEngine} (vs : list jsval) :
  to_json (JArr vs) = Some (JSArr (map (fun v => default JSNull (to_json v)) vs)).
Proof. reflexivity. Qed.

(** ** Lemmas on objects *)

Section ObjectLemmas.
Implicit Types (o : jsobj) (k : string) (v : jsval).

Lemma obj_lookup_In o k v : obj_lookup o k = Some v -> In (k, v) o.
Proof.
  induction o as [|[k' v'] o IH]; simpl; [done|].
  destruct (String.eqb_spec k k'); [intros [= ->]; subst; by left|].
  intros H. right. by apply IH.
Qed.

Lemma obj_lookup_None o k : obj_lookup o k = None <-> ~ In k (obj_keys o).
Proof.
  induction o as [|[k' v'] o IH]; simpl; [tauto|].
  destruct (String.eqb_spec k k') as [->|Hne].
  - split; [done|]. intros H. exfalso. by apply H; left.
  - rewrite IH. split; [intros H [->|Hin]; [done|by apply H]|]. intros H Hin. by apply H; right.
Qed.

Lemma obj_lookup_wf_In o k v : obj_wf o -> In (k, v) o -> obj_lookup o k = Some v.
Proof.
  unfold obj_wf, obj_keys. induction o as [|[k' v'] o IH]; simpl; [done|].
  intros Hnd Hin. apply NoDup_cons in Hnd as [Hk' Hnd].
  destruct (String.eqb_spec k k') as [->|Hne].
  - destruct Hin as [[= ->]|Hin]; [done|].
    exfalso. apply Hk', list_elem_of_In, in_map_iff. by exists (k', v).
  - destruct Hin as [[= -> ->]|Hin]; [done|]. by apply IH.
Qed.

Lemma obj_get_wf_In o k v : obj_wf o -> In (k, v) o -> obj_get o k = v.
Proof. intros Hwf Hin. unfold obj_get. by rewrite (obj_lookup_wf_In o k v). Qed.

Lemma obj_wf_filter (f : string * jsval -> bool) o : obj_wf o -> obj_wf (List.filter f o).
Proof.
  unfold obj_wf, obj_keys. induction o as [|[k v] o IH]; simpl; [done|].
  intros Hnd. apply NoDup_cons in Hnd as [Hk Hnd].
  destruct (f (k, v)); simpl; [|by apply IH].
  constructor; [|by apply IH].
  rewrite list_elem_of_In, in_map_iff. intros [[k' v'] [Heq Hin]]; simpl in Heq; subst k'.
  apply filter_In in Hin as [Hin _]. apply Hk, list_elem_of_In, in_map_iff.
  by exists (k, v').
Qed.

Lemma obj_keys_set_new k v o :
  obj_lookup o k = None -> obj_keys (obj_set k v o) = (obj_keys o ++ [k])%list.
Proof. intros H. unfold obj_set. rewrite H. unfold obj_keys. by rewrite map_app. Qed.

Lemma obj_keys_set_old k v o :
  is_Some (obj_lookup o k) -> obj_keys (obj_set k v o) = obj_keys o.
Proof.
  intros [w H]. unfold obj_set. rewrite H. unfold obj_keys. rewrite map_map.
  apply map_ext. intros [k' v']. simpl. by destruct (String.eqb k k').
Qed.

Lemma obj_wf_set k v o : obj_wf o -> obj_wf (obj_set k v o).
Proof.
  unfold obj_wf. intros Hwf. destruct (obj_lookup o k) eqn:E.
  - rewrite obj_keys_set_old; [done|by eexists].
  - rewrite obj_keys_set_new; [|done].
    apply NoDup_app. split; [done|]. split; [|apply NoDup_singleton].
    intros x Hx Hx'. apply list_elem_of_singleton in Hx'. subst x.
    apply obj_lookup_None in E. apply E. by apply list_elem_of_In.
Qed.

Lemma obj_lookup_set_eq k v o : obj_lookup (obj_set k v o) k = Some v.
Proof.
  unfold obj_set. destruct (obj_lookup o k) as [w|] eqn:E.
  - revert w E. induction o as [|[k' v'] o IH]; intros w E; simpl in *; [done|].
    destruct (String.eqb_spec k k'); simpl; [subst; by rewrite String.eqb_refl|].
    destruct (String.eqb_spec k k'); [done|]. by apply (IH w).
  - induction o as [|[k' v'] o IH]; simpl in *; [by rewrite String.eqb_refl|].
    destruct (String.eqb k k'); [done|]. by apply IH.
Qed.

Lemma obj_lookup_set_ne k k' v o :
  k <> k' -> obj_lookup (obj_set k v o) k' = obj_lookup o k'.
Proof.
  intros Hne. unfold obj_set. destruct (obj_lookup o k).
  - induction o as [|[k'' v''] o IH]; simpl; [done|].
    destruct (String.eqb_spec k k''); simpl;
      destruct (String.eqb_spec k' k''); subst; try congruence; by rewrite IH.
  - induction o as [|[k'' v''] o IH]; simpl.
    + destruct (String.eqb_spec k' k); congruence.
    + by destruct (String.eqb k' k''); [|rewrite IH].
Qed.

Lemma obj_get_set_eq k v o : obj_get (obj_set k v o) k = v.
Proof. unfold obj_get. by rewrite obj_lookup_set_eq. Qed.

Lemma obj_get_set_ne k k' v o : k <> k' -> obj_get (obj_set k v o) k' = obj_get o k'.
Proof. intros. unfold obj_get. by rewrite obj_lookup_set_ne. Qed.

Lemma obj_lookup_filter (f : string * jsval -> bool) o k :
  obj_wf o ->
  obj_lookup (List.filter f o) k =
    match obj_lookup o k with Some v => if f (k, v) then Some v else None | None => None end.
Proof.
  unfold obj_wf, obj_keys. induction o as [|[k' v'] o IH]; intros Hnd; simpl; [done|].
  apply NoDup_cons in Hnd as [Hk' Hnd].
  destruct (String.eqb_spec k k') as [->|Hne].
  - destruct (f (k', v')) eqn:Hf; simpl; [by rewrite String.eqb_refl|].
    rewrite IH; [|done]. destruct (obj_lookup o k') as [w|] eqn:E; [|done].
    exfalso. apply Hk', list_elem_of_In. apply obj_lookup_In in E.
    apply in_map_iff. by exists (k', w).
  - destruct (f (k', v')); simpl; [|by apply IH].
    destruct (String.eqb_spec k k'); [done|]. by apply IH.
Qed.

(** The set of entries after [o[k] = v]. *)
Lemma obj_set_In k v o kv :
  obj_wf o -> In kv (obj_set k v o) <-> kv = (k, v) \/ (kv.1 <> k /\ In kv o).
Proof.
  intros Hwf. unfold obj_set. destruct (obj_lookup o k) as [w|] eqn:E.
  - rewrite in_map_iff. split.
    + intros [[k' v'] [<- Hin]]; simpl.
      destruct (String.eqb_spec k k'); subst; [by left|by right].
    + intros [->|[Hne Hin]].
      * exists (k, w). simpl. rewrite String.eqb_refl. split; [done|].
        by apply obj_lookup_In.
      * exists kv. split; [|done]. destruct (String.eqb_spec k kv.1); congruence.
  - rewrite in_app_iff. simpl. split.
    + intros [Hin|[<-|[]]]; [|by left]. right. split; [|done].
      intros Heq. apply obj_lookup_None in E. apply E, in_map_iff. by exists kv.
    + intros [->|[_ Hin]]; [by right; left|by left].
Qed.
End ObjectLemmas.

#[export] Hint Resolve obj_wf_filter obj_wf_set : issue.
#[export] Hint Rewrite obj_get_set_eq obj_lookup_set_eq : issue_rw.

(** ** The [for ... in] deletion loop is a filter *)

(** One pass of the loop over [ks] keeps exactly the entries whose key was
    not visited or whose value is truthy. *)
Lemma drop_falsy_loop_filter (ks : list string) (acc : jsobj) :
  obj_wf acc ->
  fold_left
    (fun acc entry => if negb (truthy (obj_get acc entry)) then obj_delete entry acc else acc)
    ks acc
  = List.filter (fun kv => negb (existsb (String.eqb kv.1) ks) || truthy kv.2) acc.
Proof.
  revert acc. induction ks as [|k ks IH]; intros acc Hwf; simpl.
  - symmetry. apply forallb_filter_id, forallb_forall. by intros [].
  - destruct (truthy (obj_get acc k)) eqn:Ht; simpl.
    + rewrite IH; [|done]. apply filter_ext_in. intros [k' v'] Hin; simpl.
      destruct (String.eqb_spec k' k) as [->|]; simpl; [|done].
      rewrite (obj_get_wf_In acc k v') in Ht; [|done|done]. rewrite Ht.
      by destruct (negb _).
    + rewrite IH; [|by apply obj_wf_filter]. unfold obj_delete.
      rewrite filter_filter. apply filter_ext_in. intros [k' v'] Hin; simpl.
      destruct (String.eqb_spec k k') as [->|]; simpl.
      * rewrite String.eqb_refl. rewrite (obj_get_wf_In acc k' v') in Ht; [|done|done].
        by rewrite Ht, orb_false_r.
      * destruct (String.eqb_spec k' k); [congruence|]. done.
Qed.

(** The loop is a filter on truthy values. *)
Lemma drop_falsy_filter (o : jsobj) :
  obj_wf o -> drop_falsy o = List.filter (fun kv => truthy kv.2) o.
Proof.
  intros Hwf. unfold drop_falsy. rewrite drop_falsy_loop_filter; [|done].
  apply filter_ext_in. intros [k v] Hin; simpl.
  replace (existsb (String.eqb k) (obj_keys o)) with true; [done|].
  symmetry. apply existsb_exists. exists k. rewrite String.eqb_refl. split; [|done].
  apply in_map_iff. by exists (k, v).
Qed.

(** C7: the [for ... in] loop of the PUT handler keeps the entries whose
    value is truthy, in their order, and deletes the others: afterwards a
    key reads as its old value when that value was truthy and as
    [undefined] otherwise. *)
Theorem drop_falsy_spec (o : jsobj) :
  obj_wf o ->
  drop_falsy o = List.filter (fun kv => truthy kv.2) o /\
  forall k, obj_get (drop_falsy o) k = if truthy (obj_get o k) then obj_get o k else JUndefined.
Proof.
  intros Hwf. rewrite drop_falsy_filter by done. split; [done|].
  intros k. unfold obj_get. rewrite obj_lookup_filter by done.
  destruct (obj_lookup o k) as [v|]; simpl; [by destruct (truthy v)|done].
Qed.

(** ** ObjectId hex strings: round trip and bounds *)

Lemma hex_fixed_length w n acc :
  String.length (hex_fixed w n acc) = w + String.length acc.
Proof. revert n acc. induction w as [|w IH]; intros n acc; simpl; [done|]. rewrite IH. simpl. lia. Qed.

Lemma hex_val_digit d : (d < 16)%N -> hex_val (hex_digit d) = Some d.
Proof.
  intros Hd.
  assert (Hall : Forall (fun d => hex_val (hex_digit d) = Some d) (map N.of_nat (seq 0 16)))
    by (repeat constructor).
  rewrite Forall_forall in Hall. apply Hall, list_elem_of_In, in_map_iff.
  exists (N.to_nat d). split; [lia|]. apply in_seq. lia.
Qed.

Lemma parse_hex_fixed w n acc a :
  parse_hex (hex_fixed w n acc) a = parse_hex acc (a * 16 ^ N.of_nat w + n mod 16 ^ N.of_nat w)%N.
Proof.
  revert n acc a. induction w as [|w IH]; intros n acc a; simpl.
  - by rewrite N.mod_1_r, N.mul_1_r, N.add_0_r.
  - rewrite IH. simpl. rewrite hex_val_digit by (apply N.mod_lt; lia).
    f_equal. rewrite Nat2N.inj_succ, N.pow_succ_r', N.Div0.mod_mul_r by (try apply N.pow_nonzero; lia).
    ring.
Qed.

Lemma hex_val_lt c d : hex_val c = Some d -> (d < 16)%N.
Proof.
  unfold hex_val. set (n := N_of_ascii c).
  destruct ((48 <=? n)%N && (n <=? 57)%N) eqn:E1; [intros [= <-]|].
  { apply andb_prop in E1 as [E1 E2]. apply N.leb_le in E1, E2. lia. }
  destruct ((97 <=? n)%N && (n <=? 102)%N) eqn:E3; [intros [= <-]|].
  { apply andb_prop in E3 as [E4 E6]. apply N.leb_le in E4, E6. lia. }
  destruct ((65 <=? n)%N && (n <=? 70)%N) eqn:E5; [intros [= <-]|done].
  apply andb_prop in E5 as [E7 E8]. apply N.leb_le in E7, E8. lia.
Qed.

Lemma parse_hex_bound s a n :
  parse_hex s a = Some n ->
  (a * 16 ^ N.of_nat (String.length s) <= n < (a + 1) * 16 ^ N.of_nat (String.length s))%N.
Proof.
  revert a. induction s as [|c s IH]; intros a H; simpl in *.
  - injection H as <-. lia.
  - destruct (hex_val c) as [d|] eqn:Hc; [|done].
    pose proof (hex_val_lt c d Hc).
    apply IH in H. rewrite Nat2N.inj_succ, N.pow_succ_r'.
    set (p := (16 ^ N.of_nat (String.length s))%N) in *. nia.
Qed.

Lemma oid_to_hex_length (n : N) : String.length (oid_to_hex n) = 24.
Proof. unfold oid_to_hex. by rewrite hex_fixed_length. Qed.

(** Parsing the printed form of a 96-bit ObjectId. *)
Lemma oid_of_hex_to_hex (n : N) :
  (n < 16 ^ 24)%N -> oid_of_hex (oid_to_hex n) = Some n.
Proof.
  intros Hn. unfold oid_of_hex. rewrite oid_to_hex_length, Nat.eqb_refl.
  unfold oid_to_hex. rewrite parse_hex_fixed. cbn [parse_hex].
  change (N.of_nat 24) with 24%N. by rewrite N.mul_0_l, N.add_0_l, N.mod_small.
Qed.

(** Every string accepted as an ObjectId denotes a 96-bit number. *)
Lemma oid_of_hex_bound (s : string) (n : N) :
  oid_of_hex s = Some n -> (n < 16 ^ 24)%N.
Proof.
  unfold oid_of_hex. destruct (Nat.eqb_spec (String.length s) 24) as [Hl|]; [|done].
  intros H. apply parse_hex_bound in H. rewrite Hl in H.
  change (N.of_nat 24) with 24%N in H. lia.
Qed.

(** Objects written as literals are checked by computation. *)
#[export] Instance obj_wf_dec (o : jsobj) : Decision (obj_wf o) := _.

Ltac solve_obj_wf :=
  unfold obj_wf; apply (proj1 (bool_decide_eq_true _)); vm_compute; reflexivity.

(** ** Concrete instances *)

Lemma drop_falsy_spec_witness :
  drop_falsy [("_id", JStr "a"); ("open", JBool false); ("status_text", JStr "")] = [("_id", JStr "a")] /\
  obj_get (drop_falsy [("_id", JStr "a"); ("open", JBool false); ("status_text", JStr "")]) "open"
    = JUndefined.
Proof.
  destruct (drop_falsy_spec [("_id", JStr "a"); ("open", JBool false); ("status_text", JStr "")])
    as [Heq Hget]; [solve_obj_wf|].
  split; [exact Heq|exact (Hget "open")].
Defined.

Lemma oid_of_hex_bound_witness : (0x63dd624c3e7e112e07a5d032 < 16 ^ 24)%N.
Proof. apply (oid_of_hex_bound "63dd624c3e7e112e07a5d032"). vm_compute. reflexivity. Defined.
