(* ===== verification/IssueModel.v ===== *)
(** * The Issue model: schema, casts, construction, update, filters

    [src/routes/api.js] requires [../models/issues], a Mongoose model that is
    not among the sources.  Its schema is the data model of the
    specification (section 3): an ObjectId [_id], the strings [project],
    [issue_title], [issue_text], [created_by] (required), [assigned_to],
    [status_text] (default [""]), the boolean [open] (default [true]) and the
    dates [created_on], [updated_on] (default: now).  This file models the
    document ([issue]), the casts Mongoose applies to request values before
    they reach a document or a query ([cast]), the document constructor with
    its defaults and required-field validation ([new_issue]), the [$set]
    update Mongoose derives from a plain update object ([cast_update],
    [apply_update]) and the conditions of a [find] filter ([cast_filter],
    [matches]). *)

From S2P Require Import Prelude JsValue.
From Stdlib Require Import Ascii.

Local Open Scope string_scope.

(** ** Documents *)

Record issue := mkIssue {
  _id : N;
  project : string;
  issue_title : string;
  issue_text : string;
  created_by : string;
  assigned_to : string;
  status_text : string;
  open : bool;
  created_on : Z;
  updated_on : Z
}.

(** The schema types of the paths. *)
Inductive ptype := PString | PBoolean | PDate | PObjectId.

(** A value of a schema type, as stored in a document. *)
Inductive fval :=
| FString (s : string)
| FBoolean (b : bool)
| FDate (ms : Z)
| FObjectId (id : N).

#[export] Instance fval_eq_dec : EqDecision fval.
Proof. solve_decision. Defined.

(** The paths of the schema and their types; any other key is not a path. *)
Definition schema_path (k : string) : option ptype :=
  if String.eqb k "_id" then Some PObjectId
  else if existsb (String.eqb k)
         ["project"; "issue_title"; "issue_text"; "created_by"; "assigned_to"; "status_text"]
  then Some PString
  else if String.eqb k "open" then Some PBoolean
  else if String.eqb k "created_on" || String.eqb k "updated_on" then Some PDate
  else None.

(** Reading a path of a document. *)
Definition doc_get (d : issue) (k : string) : option fval :=
  if String.eqb k "_id" then Some (FObjectId (_id d))
  else if String.eqb k "project" then Some (FString (project d))
  else if String.eqb k "issue_title" then Some (FString (issue_title d))
  else if String.eqb k "issue_text" then Some (FString (issue_text d))
  else if String.eqb k "created_by" then Some (FString (created_by d))
  else if String.eqb k "assigned_to" then Some (FString (assigned_to d))
  else if String.eqb k "status_text" then Some (FString (status_text d))
  else if String.eqb k "open" then Some (FBoolean (open d))
  else if String.eqb k "created_on" then Some (FDate (created_on d))
  else if String.eqb k "updated_on" then Some (FDate (updated_on d))
  else None.

(** Writing a path of a document ([$set]); a value of the wrong type or a
    key that is not a path leaves the document unchanged (the casts below
    never produce either). *)
Definition doc_set (k : string) (f : fval) (d : issue) : issue :=
  let str (k' : string) (old : string) :=
    match f with FString s => if String.eqb k k' then s else old | _ => old end in
  let date (k' : string) (old : Z) :=
    match f with FDate ms => if String.eqb k k' then ms else old | _ => old end in
  {| _id := match f with FObjectId i => if String.eqb k "_id" then i else _id d | _ => _id d end;
     project := str "project" (project d);
     issue_title := str "issue_title" (issue_title d);
     issue_text := str "issue_text" (issue_text d);
     created_by := str "created_by" (created_by d);
     assigned_to := str "assigned_to" (assigned_to d);
     status_text := str "status_text" (status_text d);
     open := match f with FBoolean b => if String.eqb k "open" then b else open d | _ => open d end;
     created_on := date "created_on" (created_on d);
     updated_on := date "updated_on" (updated_on d) |}.

(** ** Casts of request values to schema types *)

(** [String(n)] of a JavaScript integer, in decimal. *)
Fixpoint dec_digits (fuel : nat) (n : N) (acc : string) : string :=
  match fuel with
  | O => acc
  | S f =>
      let acc' := String (ascii_of_N (48 + n mod 10)) acc in
      if (n <? 10)%N then acc' else dec_digits f (n / 10)%N acc'
  end.

Definition number_to_string (z : Z) : string :=
  match z with
  | Z0 => "0"
  | Zpos p => dec_digits (Pos.size_nat p) (Npos p) ""
  | Zneg p => "-" ++ dec_digits (Pos.size_nat p) (Npos p) ""
  end.

(** A JavaScript engine for concrete runs of the model: dates print as
    their millisecond count and only decimal strings parse as dates. *)
Fixpoint parse_decimal (s : string) (acc : Z) : option Z :=
  match s with
  | EmptyString => Some acc
  | String c s' =>
      let n := Z.of_N (N_of_ascii c) in
      if (48 <=? n)%Z && (n <=? 57)%Z then parse_decimal s' (acc * 10 + (n - 48))%Z else None
  end.

Definition decimal_engine : JsEngine := {|
  date_parse := fun s => match s with EmptyString => None | _ => parse_decimal s 0 end;
  date_to_iso := number_to_string
|}.

(** Mongoose's [SchemaString] cast: strings as they are, numbers and
    booleans through [toString]; arrays, [null] and [undefined] are
    rejected ([CastError]).  Dates and ObjectIds never occur in a request
    and are rejected here.  Narrower than Mongoose: an object whose [_id]
    is a non-empty string (a body such as [issue_title[_id]=x] under the
    extended URL-encoded parser) casts to that string there, and is
    rejected here. *)
Definition cast_string (v : jsval) : option string :=
  match v with
  | JStr s => Some s
  | JNum n => Some (number_to_string n)
  | JBool b => Some (if b then "true" else "false")
  | _ => None
  end.

(** Mongoose's [SchemaBoolean] cast: [true, 'true', 1, '1', 'yes'] are
    true, [false, 'false', 0, '0', 'no'] are false, anything else fails. *)
Definition cast_boolean (v : jsval) : option bool :=
  match v with
  | JBool b => Some b
  | JNum 1 => Some true
  | JNum 0 => Some false
  | JStr s =>
      if existsb (String.eqb s) ["true"; "1"; "yes"] then Some true
      else if existsb (String.eqb s) ["false"; "0"; "no"] then Some false
      else None
  | _ => None
  end.

(** Mongoose's [SchemaDate] cast: dates, numbers (milliseconds) and date
    strings through [Date.parse].  Narrower or wider than Mongoose in two
    places: a number is accepted whatever its size, where [new Date(n)]
    is an invalid date (and the cast fails) beyond 8.64e15 ms; and a
    one-element array, which Mongoose converts to its element's string,
    is rejected. *)
Definition cast_date `{JsEngine} (v : jsval) : option Z :=
  match v with
  | JDate ms => Some ms
  | JNum n => Some n
  | JStr s => date_parse s
  | _ => None
  end.

(** Mongoose's [ObjectId] cast: an ObjectId, or a string of 24 hex digits.
    Narrower than bson's [ObjectId] constructor: a 12-character string
    (taken there as the id's 12 bytes), an array whose [toString] is 24
    hex digits (such as a one-element array of a valid id) and an object
    whose [_id] is a valid id are all ids there, and are rejected here. *)
Definition cast_objectid (v : jsval) : option N :=
  match v with
  | JOid n => Some n
  | JStr s => oid_of_hex s
  | _ => None
  end.

Definition cast `{JsEngine} (t : ptype) (v : jsval) : option fval :=
  match t with
  | PString => FString <$> cast_string v
  | PBoolean => FBoolean <$> cast_boolean v
  | PDate => FDate <$> cast_date v
  | PObjectId => FObjectId <$> cast_objectid v
  end.

(** ** Construction and update *)

Section WithEngine.
Context `{JsEngine}.

(** The [$set] that Mongoose derives from a plain object: every key that
    is a schema path, cast to the path's type; keys that are not paths are
    dropped (strict mode); one failed cast fails the whole operation. *)
Fixpoint cast_update (obj : jsobj) : option (list (string * fval)) :=
  match obj with
  | [] => Some []
  | (k, v) :: rest =>
      match schema_path k with
      | None => cast_update rest
      | Some t =>
          f ← cast t v;
          ops ← cast_update rest;
          Some ((k, f) :: ops)
      end
  end.

Definition apply_update (ops : list (string * fval)) (d : issue) : issue :=
  fold_left (fun d kf => doc_set kf.1 kf.2 d) ops d.

(** A fresh document before its fields are assigned: the schema's
    defaults. *)
Definition issue_defaults (id : N) (now : Z) : issue :=
  {| _id := id; project := ""; issue_title := ""; issue_text := "";
     created_by := ""; assigned_to := ""; status_text := ""; open := true;
     created_on := now; updated_on := now |}.

(** The required paths must hold a non-empty string. *)
Definition issue_valid (d : issue) : bool :=
  negb (String.eqb (project d) "") && negb (String.eqb (issue_title d) "") &&
  negb (String.eqb (issue_text d) "") && negb (String.eqb (created_by d) "").

(** [new Issue(obj)] followed by the validation of [save]. *)
Definition new_issue (id : N) (now : Z) (obj : jsobj) : option issue :=
  ops ← cast_update obj;
  let d := apply_update ops (issue_defaults id now) in
  if issue_valid d then Some d else None.

(** ** Filters *)

(** A condition of a [find] filter.  A scalar value is an equality; an
    array (a repeated query parameter) becomes [$in]; a key that is not a
    path matches no document, since none has that field. *)
Inductive cond :=
| CEq (k : string) (f : fval)
| CIn (k : string) (fs : list fval)
| CUnknown (k : string).

Fixpoint cast_all (t : ptype) (vs : list jsval) : option (list fval) :=
  match vs with
  | [] => Some []
  | v :: vs' => f ← cast t v; fs ← cast_all t vs'; Some (f :: fs)
  end.

(** Objects as filter values (query operators) are not modelled: they
    fail the query. *)
Definition cast_cond (k : string) (v : jsval) : option cond :=
  match schema_path k with
  | None => Some (CUnknown k)
  | Some t =>
      match v with
      | JArr vs => CIn k <$> cast_all t vs
      | JObj _ => None
      | _ => CEq k <$> cast t v
      end
  end.

Fixpoint cast_filter (q : jsobj) : option (list cond) :=
  match q with
  | [] => Some []
  | (k, v) :: q' => c ← cast_cond k v; cs ← cast_filter q'; Some (c :: cs)
  end.

Definition cond_holds (d : issue) (c : cond) : bool :=
  match c with
  | CEq k f => bool_decide (doc_get d k = Some f)
  | CIn k fs => match doc_get d k with Some f => bool_decide (f ∈ fs) | None => false end
  | CUnknown _ => false
  end.

Definition matches (cs : list cond) (d : issue) : bool := forallb (cond_holds d) cs.
End WithEngine.

(** ** Lemmas on documents *)

(** The type a value of [fval] has. *)
Definition has_type (t : ptype) (f : fval) : bool :=
  match t, f with
  | PString, FString _ | PBoolean, FBoolean _ | PDate, FDate _ | PObjectId, FObjectId _ => true
  | _, _ => false
  end.

(** Case analysis on every string comparison of the goal. *)
Ltac str_cases :=
  repeat match goal with
  | |- context [String.eqb ?a ?b] => destruct (String.eqb_spec a b); subst; simpl in *
  | H : context [String.eqb ?a ?b] |- _ => destruct (String.eqb_spec a b); subst; simpl in *
  end.

Lemma doc_get_set_eq (k : string) (t : ptype) (f : fval) (d : issue) :
  schema_path k = Some t -> has_type t f = true -> doc_get (doc_set k f d) k = Some f.
Proof.
  unfold schema_path. intros Hk Ht.
  destruct f; destruct t; simpl in Ht; try done; unfold doc_get, doc_set; simpl in *;
    str_cases; congruence.
Qed.

Lemma doc_get_set_ne (k k' : string) (f : fval) (d : issue) :
  k <> k' -> doc_get (doc_set k f d) k' = doc_get d k'.
Proof. intros Hne. unfold doc_get, doc_set. destruct f; str_cases; congruence. Qed.

Lemma doc_set_id (k : string) (f : fval) (d : issue) :
  k <> "_id" -> _id (doc_set k f d) = _id d.
Proof. intros Hk. unfold doc_set. destruct f; simpl; str_cases; congruence. Qed.

Section CastLemmas.
Context `{JsEngine}.

Lemma cast_has_type (t : ptype) (v : jsval) (f : fval) :
  cast t v = Some f -> has_type t f = true.
Proof. destruct t; simpl; intros Hc; apply fmap_Some in Hc as (? & _ & ->); done. Qed.

Lemma cast_update_In (o : jsobj) (ops : list (string * fval)) (k : string) (f : fval) :
  cast_update o = Some ops -> In (k, f) ops ->
  exists t v, schema_path k = Some t /\ In (k, v) o /\ cast t v = Some f.
Proof.
  revert ops. induction o as [|[k' v'] o IH]; intros ops Hc Hin; simpl in Hc.
  - by injection Hc as <-.
  - destruct (schema_path k') as [t|] eqn:Ht.
    + inv_bind. subst ops. destruct Hin as [[= <- <-]|Hin].
      * exists t, v'. by split; [|split; [left|]].
      * destruct (IH _ Ha0 Hin) as (t' & v & ? & ? & ?). exists t', v.
        by split; [|split; [right|]].
    + destruct (IH _ Hc Hin) as (t' & v & ? & ? & ?). exists t', v.
      by split; [|split; [right|]].
Qed.

Lemma cast_update_complete (o : jsobj) (ops : list (string * fval)) (k : string) (v : jsval) (t : ptype) :
  cast_update o = Some ops -> In (k, v) o -> schema_path k = Some t ->
  exists f, cast t v = Some f /\ In (k, f) ops.
Proof.
  revert ops. induction o as [|[k' v'] o IH]; intros ops Hc Hin Ht; simpl in *; [done|].
  destruct Hin as [[= <- <-]|Hin].
  - rewrite Ht in Hc. inv_bind. subst ops. exists a. by split; [|left].
  - destruct (schema_path k'); [inv_bind; subst ops|].
    + destruct (IH _ Ha0 Hin Ht) as (f & ? & ?). exists f. by split; [|right].
    + by apply IH.
Qed.

Lemma cast_update_keys (o : jsobj) (ops : list (string * fval)) :
  cast_update o = Some ops -> obj_wf o -> NoDup (map fst ops).
Proof.
  unfold obj_wf, obj_keys. revert ops.
  induction o as [|[k v] o IH]; intros ops Hc Hnd; simpl in *.
  - by injection Hc as <-.
  - apply NoDup_cons in Hnd as [Hk Hnd]. destruct (schema_path k); [|by apply IH].
    inv_bind. subst ops. simpl. constructor; [|by apply IH].
    rewrite list_elem_of_In, in_map_iff. intros [[k' f'] [Heq Hin]]; simpl in Heq; subst k'.
    destruct (cast_update_In o _ k f' Ha0 Hin) as (? & v' & _ & Hin' & _).
    apply Hk, list_elem_of_In, in_map_iff. by exists (k, v').
Qed.
End CastLemmas.

(** The fields of a document after [apply_update] with distinct keys:
    each updated path holds its new value, the other paths are unchanged. *)
Lemma apply_update_get (ops : list (string * fval)) (d : issue) (k : string) :
  NoDup (map fst ops) ->
  (forall k' f, In (k', f) ops -> exists t, schema_path k' = Some t /\ has_type t f = true) ->
  doc_get (apply_update ops d) k =
    match List.find (fun kf => String.eqb kf.1 k) ops with
    | Some (_, f) => Some f
    | None => doc_get d k
    end.
Proof.
  unfold apply_update. revert d.
  induction ops as [|[k' f] ops IH]; intros d Hnd Hty; simpl; [done|].
  apply NoDup_cons in Hnd as [Hk' Hnd].
  rewrite IH; [|done|by intros; apply Hty; right].
  destruct (String.eqb_spec k' k) as [->|Hne].
  - destruct (List.find _ ops) as [[k'' f'']|] eqn:E.
    + apply find_some in E as [Hin Heq]. simpl in Heq. apply String.eqb_eq in Heq as ->.
      exfalso. apply Hk', list_elem_of_In, in_map_iff. by exists (k, f'').
    + destruct (Hty k f) as (t & ? & ?); [by left|]. by eapply doc_get_set_eq.
  - destruct (List.find _ ops) as [[? ?]|]; [done|]. by apply doc_get_set_ne.
Qed.

Section UpdateLemmas.
Context `{JsEngine}.

Lemma cast_update_typed (o : jsobj) (ops : list (string * fval)) :
  cast_update o = Some ops ->
  forall k' f, In (k', f) ops -> exists t, schema_path k' = Some t /\ has_type t f = true.
Proof.
  intros Hc k' f Hin. destruct (cast_update_In o ops k' f Hc Hin) as (t & v & ? & _ & ?).
  exists t. split; [done|]. by eapply cast_has_type.
Qed.

(** After applying the update cast from an object with distinct keys,
    every path given in the object holds the cast value, and every other
    path is unchanged. *)
Lemma apply_cast_update_get (o : jsobj) (ops : list (string * fval)) (d : issue) (k : string) :
  obj_wf o -> cast_update o = Some ops ->
  doc_get (apply_update ops d) k =
    match obj_lookup o k, schema_path k with
    | Some v, Some t => cast t v
    | _, _ => doc_get d k
    end.
Proof.
  intros Hwf Hc. rewrite apply_update_get;
    [|by eapply cast_update_keys|by eapply cast_update_typed].
  destruct (List.find _ ops) as [[k' f]|] eqn:E.
  - apply find_some in E as [Hin Heq]. simpl in Heq. apply String.eqb_eq in Heq as ->.
    destruct (cast_update_In o ops k f Hc Hin) as (t & v & Ht & Hv & Hcast).
    rewrite (obj_lookup_wf_In o k v), Ht; done.
  - destruct (obj_lookup o k) as [v|] eqn:Hl; [|done].
    destruct (schema_path k) as [t|] eqn:Ht; [|done].
    destruct (cast_update_complete o ops k v t Hc (obj_lookup_In _ _ _ Hl) Ht) as (f & ? & Hin).
    exfalso. eapply find_none in E; [|exact Hin]. simpl in E. by rewrite String.eqb_refl in E.
Qed.

(** The id of a document read through [doc_get]. *)
Lemma doc_get_id (d : issue) : doc_get d "_id" = Some (FObjectId (_id d)).
Proof. done. Qed.
End UpdateLemmas.

Section CastTotal.
Context `{JsEngine}.

(** The update cast succeeds when every path's value casts. *)
Lemma cast_update_Some (o : jsobj) :
  (forall k v t, In (k, v) o -> schema_path k = Some t -> is_Some (cast t v)) ->
  is_Some (cast_update o).
Proof.
  induction o as [|[k v] o IH]; intros Hall; simpl; [by eexists|].
  destruct (IH (fun k' v' t Hin => Hall k' v' t (or_intror Hin))) as [ops Hops].
  destruct (schema_path k) as [t|] eqn:Ht; [|by eexists].
  destruct (Hall k v t (or_introl eq_refl) Ht) as [f Hf].
  rewrite Hf, Hops. by eexists.
Qed.
(** One value that does not cast fails the whole update. *)
Lemma cast_update_None (o : jsobj) (k : string) (v : jsval) (t : ptype) :
  In (k, v) o -> schema_path k = Some t -> cast t v = None -> cast_update o = None.
Proof.
  induction o as [|[k' v'] o IH]; intros Hin Ht Hc; simpl in *; [done|].
  destruct Hin as [[= <- <-]|Hin].
  - by rewrite Ht, Hc.
  - destruct (schema_path k'); [|by apply IH].
    destruct (cast _ v'); simpl; [|done]. by rewrite IH.
Qed.
End CastTotal.

(** ** Casts of truthy values, filters *)

Lemma dec_digits_nonempty (f : nat) (n : N) (acc : string) :
  acc <> "" -> dec_digits f n acc <> "".
Proof.
  revert n acc. induction f as [|f IH]; intros n acc Hacc; simpl; [done|].
  destruct (n <? 10)%N; [done|]. by apply IH.
Qed.

Lemma number_to_string_nonempty (z : Z) : number_to_string z <> "".
Proof.
  destruct z as [|p|p]; simpl; [done| |done].
  destruct p; simpl; try case_match; try done; by apply dec_digits_nonempty.
Qed.

(** A truthy value casts to a non-empty string, if it casts at all. *)
Lemma cast_string_truthy (v : jsval) (s : string) :
  truthy v = true -> cast_string v = Some s -> s <> "".
Proof.
  intros Ht Hc. destruct v as [| |b|n|s'| | | |]; simpl in Ht, Hc; try discriminate.
  - destruct b; [|discriminate]. injection Hc as <-. discriminate.
  - injection Hc as <-. apply number_to_string_nonempty.
  - injection Hc as <-. intros ->. discriminate.
Qed.

Section FilterLemmas.
Context `{JsEngine}.

Lemma cast_filter_In (q : jsobj) (cs : list cond) (k : string) (v : jsval) :
  cast_filter q = Some cs -> In (k, v) q -> exists c, cast_cond k v = Some c /\ In c cs.
Proof.
  revert cs. induction q as [|[k' v'] q IH]; intros cs Hc Hin; simpl in *; [done|].
  inv_bind. subst cs. destruct Hin as [[= <- <-]|Hin].
  - exists a. by split; [|left].
  - destruct (IH _ Ha0 Hin) as (c & ? & ?). exists c. by split; [|right].
Qed.

(** A document that matches a filter holds, on every string path the
    query names with a string, exactly that string. *)
Lemma matches_string_field (q : jsobj) (cs : list cond) (d : issue) (k x : string) :
  cast_filter q = Some cs -> matches cs d = true ->
  obj_lookup q k = Some (JStr x) -> schema_path k = Some PString ->
  doc_get d k = Some (FString x).
Proof.
  intros Hc Hm Hl Hk. apply obj_lookup_In in Hl.
  destruct (cast_filter_In q cs k _ Hc Hl) as (c & Hcc & Hin).
  unfold cast_cond in Hcc. rewrite Hk in Hcc. simpl in Hcc. injection Hcc as <-.
  unfold matches in Hm. rewrite forallb_forall in Hm. specialize (Hm _ Hin).
  simpl in Hm. by apply bool_decide_eq_true in Hm.
Qed.
End FilterLemmas.
