(* ===== verification/Store.v ===== *)
(** * The document store: reference semantics, interface, implementation

    The handlers of [src/routes/api.js] call four operations of the
    Mongoose model: [Issue.find(query)], [newIssue.save()],
    [Issue.findByIdAndUpdate(id, update)] and [Issue.findByIdAndDelete(id)]
    (lines 21, 65, 105, 123).  Each returns through a callback either an
    error or a result.  This file gives them
    - a reference semantics on the collection seen as a [gmap] from
      ObjectIds to documents ([ref_find], [ref_save], [ref_update],
      [ref_delete]), where [None] is the error the callback receives;
    - a class [IssueStore] of the operations the handlers call, and a
      class [IssueStoreSpec] that states what a store promises them:
      every operation refines the reference semantics on the store's view
      of its documents; [find] may return the documents in any order, and
      [save] picks a fresh id of its own;
    - an in-memory store ([MemStore]) and the proof that it is an instance.
    Connection faults of a real database are not modelled: the store fails
    exactly where the reference semantics fails. *)

From S2P Require Import Prelude JsValue IssueModel.

Local Open Scope string_scope.

Section Reference.
Context `{JsEngine}.
Implicit Types (m : gmap N issue).

(** [Issue.find(query)]: the documents that satisfy every condition, in
    the collection's own order; a value that does not cast is an error. *)
Definition ref_find m (q : jsobj) : option (list issue) :=
  cs ← cast_filter q;
  Some (List.filter (matches cs) (map snd (map_to_list m))).

(** [new Issue(obj).save()] with the id [i] generated for the new
    document: the document is stored under its [_id]; a duplicate key is
    an error. *)
Definition ref_save m (i : N) (now : Z) (obj : jsobj) : option (issue * gmap N issue) :=
  d ← new_issue i now obj;
  match m !! _id d with
  | Some _ => None
  | None => Some (d, <[_id d := d]> m)
  end.

(** [Issue.findByIdAndUpdate(id, update)]: the id and the update are cast
    first; then the document is looked up; the result is the document as
    it was before the update.  Changing [_id] is an error (immutable
    field). *)
Definition ref_update m (idv : jsval) (upd : jsobj) : option (option issue * gmap N issue) :=
  i ← cast_objectid idv;
  ops ← cast_update upd;
  match m !! i with
  | None => Some (None, m)
  | Some old =>
      let d := apply_update ops old in
      if decide (_id d = _id old) then Some (Some old, <[i := d]> m) else None
  end.

(** [Issue.findByIdAndDelete(id)]: the removed document, if any. *)
Definition ref_delete m (idv : jsval) : option (option issue * gmap N issue) :=
  i ← cast_objectid idv;
  match m !! i with
  | None => Some (None, m)
  | Some old => Some (Some old, delete i m)
  end.
End Reference.

(** ** The interface a store offers the handlers *)

(** The operations a store offers the handlers: its view of the
    collection, and the four calls the handlers make. *)
Class IssueStore `{JsEngine} (S : Type) := {
  st_docs : S -> gmap N issue;
  st_find : S -> jsobj -> option (list issue);
  st_save : S -> Z -> jsobj -> option (issue * S);
  st_update : S -> jsval -> jsobj -> option (option issue * S);
  st_delete : S -> jsval -> option (option issue * S)
}.

(** What a store promises: on its well-formed states every operation
    refines the reference semantics. *)
Class IssueStoreSpec `{JsEngine} (S : Type) `{!IssueStore S} := {
  st_wf : S -> Prop;
  st_find_spec s q : st_wf s ->
    match st_find s q, ref_find (st_docs s) q with
    | None, None => True
    | Some l1, Some l2 => l1 ≡ₚ l2
    | _, _ => False
    end;
  st_save_spec s now obj : st_wf s ->
    match st_save s now obj with
    | None => exists i, st_docs s !! i = None /\ ref_save (st_docs s) i now obj = None
    | Some (d, s') => st_wf s' /\
        exists i, st_docs s !! i = None /\ ref_save (st_docs s) i now obj = Some (d, st_docs s')
    end;
  st_update_spec s idv upd : st_wf s ->
    match st_update s idv upd with
    | None => ref_update (st_docs s) idv upd = None
    | Some (r, s') => st_wf s' /\ ref_update (st_docs s) idv upd = Some (r, st_docs s')
    end;
  st_delete_spec s idv : st_wf s ->
    match st_delete s idv with
    | None => ref_delete (st_docs s) idv = None
    | Some (r, s') => st_wf s' /\ ref_delete (st_docs s) idv = Some (r, st_docs s')
    end
}.

(** ** Lemmas on the reference semantics *)

Section ReferenceLemmas.
Context `{JsEngine}.
Implicit Types (m : gmap N issue).

Lemma ref_update_keys m idv upd r m' k :
  ref_update m idv upd = Some (r, m') -> is_Some (m' !! k) -> is_Some (m !! k).
Proof.
  unfold ref_update. intros Hu. inv_bind.
  destruct (m !! a) as [old|] eqn:E; [|by simplify_eq].
  case_decide; simplify_eq. rewrite lookup_insert.
  case_decide; [subst; by eexists|done].
Qed.

Lemma ref_delete_keys m idv r m' k :
  ref_delete m idv = Some (r, m') -> is_Some (m' !! k) -> is_Some (m !! k).
Proof.
  unfold ref_delete. intros Hd. inv_bind.
  destruct (m !! a); simplify_eq; [|done].
  rewrite lookup_delete. by case_decide.
Qed.

Lemma ref_save_keys m i now obj d m' k :
  ref_save m i now obj = Some (d, m') -> is_Some (m' !! k) -> k = _id d \/ is_Some (m !! k).
Proof.
  unfold ref_save. intros Hs. inv_bind. destruct (m !! _id a); simplify_eq.
  rewrite lookup_insert. case_decide; auto.
Qed.
End ReferenceLemmas.

(** ** An in-memory store *)

Module MemStore.
(** The documents, and the counter the next id is drawn from. *)
Record mem := { mem_docs : gmap N issue; mem_next : N }.

(** Every stored id is below the counter. *)
Definition mem_wf (s : mem) : Prop :=
  forall k, is_Some (mem_docs s !! k) -> (k < mem_next s)%N.

Section Ops.
Context `{JsEngine}.

Definition mem_find (s : mem) (q : jsobj) : option (list issue) := ref_find (mem_docs s) q.

Definition mem_save (s : mem) (now : Z) (obj : jsobj) : option (issue * mem) :=
  '(d, m') ← ref_save (mem_docs s) (mem_next s) now obj;
  Some (d, {| mem_docs := m'; mem_next := N.succ (N.max (mem_next s) (_id d)) |}).

Definition mem_update (s : mem) (idv : jsval) (upd : jsobj) : option (option issue * mem) :=
  '(r, m') ← ref_update (mem_docs s) idv upd;
  Some (r, {| mem_docs := m'; mem_next := mem_next s |}).

Definition mem_delete (s : mem) (idv : jsval) : option (option issue * mem) :=
  '(r, m') ← ref_delete (mem_docs s) idv;
  Some (r, {| mem_docs := m'; mem_next := mem_next s |}).

Lemma mem_next_fresh (s : mem) : mem_wf s -> mem_docs s !! mem_next s = None.
Proof.
  intros Hwf. destruct (mem_docs s !! mem_next s) eqn:E; [|done].
  assert (mem_next s < mem_next s)%N by (apply Hwf; by eexists). lia.
Qed.

Lemma mem_find_spec s q : mem_wf s ->
  match mem_find s q, ref_find (mem_docs s) q with
  | None, None => True
  | Some l1, Some l2 => l1 ≡ₚ l2
  | _, _ => False
  end.
Proof. intros _. unfold mem_find. by destruct (ref_find _ _). Qed.

Lemma mem_save_spec s now obj : mem_wf s ->
  match mem_save s now obj with
  | None => exists i, mem_docs s !! i = None /\ ref_save (mem_docs s) i now obj = None
  | Some (d, s') => mem_wf s' /\
      exists i, mem_docs s !! i = None /\ ref_save (mem_docs s) i now obj = Some (d, mem_docs s')
  end.
Proof.
  intros Hwf. unfold mem_save.
  destruct (ref_save _ _ _ _) as [[d m']|] eqn:E; simpl.
  - split.
    + intros k Hk. simpl in *. destruct (ref_save_keys _ _ _ _ _ _ k E Hk) as [->|Hk'];
        [lia|]. specialize (Hwf k Hk'). lia.
    + exists (mem_next s). split; [by apply mem_next_fresh|done].
  - exists (mem_next s). split; [by apply mem_next_fresh|done].
Qed.

Lemma mem_update_spec s idv upd : mem_wf s ->
  match mem_update s idv upd with
  | None => ref_update (mem_docs s) idv upd = None
  | Some (r, s') => mem_wf s' /\ ref_update (mem_docs s) idv upd = Some (r, mem_docs s')
  end.
Proof.
  intros Hwf. unfold mem_update.
  destruct (ref_update _ _ _) as [[r m']|] eqn:E; simpl; [|done].
  split; [|done]. intros k Hk. apply Hwf. by eapply ref_update_keys.
Qed.

Lemma mem_delete_spec s idv : mem_wf s ->
  match mem_delete s idv with
  | None => ref_delete (mem_docs s) idv = None
  | Some (r, s') => mem_wf s' /\ ref_delete (mem_docs s) idv = Some (r, mem_docs s')
  end.
Proof.
  intros Hwf. unfold mem_delete.
  destruct (ref_delete _ _) as [[r m']|] eqn:E; simpl; [|done].
  split; [|done]. intros k Hk. apply Hwf. by eapply ref_delete_keys.
Qed.

(** The in-memory store implements the interface. *)
#[export] Instance mem_issue_store : IssueStore mem := {|
  st_docs := mem_docs;
  st_find := mem_find;
  st_save := mem_save;
  st_update := mem_update;
  st_delete := mem_delete
|}.

#[export] Instance mem_issue_store_spec : IssueStoreSpec mem := {|
  st_wf := mem_wf;
  st_find_spec := mem_find_spec;
  st_save_spec := mem_save_spec;
  st_update_spec := mem_update_spec;
  st_delete_spec := mem_delete_spec
|}.
End Ops.

Definition empty_mem : mem := {| mem_docs := ∅; mem_next := 1 |}.

Lemma empty_mem_wf : mem_wf empty_mem.
Proof. intros k [d Hd]. simpl in Hd. by rewrite lookup_empty in Hd. Qed.

(** The in-memory store refines the reference semantics: on a
    well-formed store, [find] returns the matching documents (as a
    permutation), [save] stores the new document under a fresh id,
    [update] and [delete] have the reference effect, and every operation
    keeps the store well formed. *)
Theorem mem_store_refines `{JsEngine} (s : mem) (q : jsobj) (now : Z) (obj : jsobj)
    (idv : jsval) (upd : jsobj) :
  mem_wf s ->
  match mem_find s q, ref_find (mem_docs s) q with
  | None, None => True
  | Some l1, Some l2 => l1 ≡ₚ l2
  | _, _ => False
  end /\
  match mem_save s now obj with
  | None => exists i, mem_docs s !! i = None /\ ref_save (mem_docs s) i now obj = None
  | Some (d, s') => mem_wf s' /\
      exists i, mem_docs s !! i = None /\ ref_save (mem_docs s) i now obj = Some (d, mem_docs s')
  end /\
  match mem_update s idv upd with
  | None => ref_update (mem_docs s) idv upd = None
  | Some (r, s') => mem_wf s' /\ ref_update (mem_docs s) idv upd = Some (r, mem_docs s')
  end /\
  match mem_delete s idv with
  | None => ref_delete (mem_docs s) idv = None
  | Some (r, s') => mem_wf s' /\ ref_delete (mem_docs s) idv = Some (r, mem_docs s')
  end.
Proof.
  intros Hwf. split; [by apply mem_find_spec|]. split; [by apply mem_save_spec|].
  split; [by apply mem_update_spec|by apply mem_delete_spec].
Qed.

Lemma mem_store_refines_witness :
  let E := {| date_parse := fun _ => None; date_to_iso := fun _ => "" |} in
  (@mem_save E empty_mem 0 [("project", JStr "p"); ("issue_title", JStr "t");
                            ("issue_text", JStr "x"); ("created_by", JStr "u")] <> None) /\
  match @mem_save E empty_mem 0 [("project", JStr "p"); ("issue_title", JStr "t");
                            ("issue_text", JStr "x"); ("created_by", JStr "u")] with
  | None => exists i, mem_docs empty_mem !! i = None /\
              ref_save (mem_docs empty_mem) i 0 [("project", JStr "p"); ("issue_title", JStr "t");
                            ("issue_text", JStr "x"); ("created_by", JStr "u")] = None
  | Some (d, s') => mem_wf s' /\
      exists i, mem_docs empty_mem !! i = None /\
        ref_save (mem_docs empty_mem) i 0 [("project", JStr "p"); ("issue_title", JStr "t");
                            ("issue_text", JStr "x"); ("created_by", JStr "u")] = Some (d, mem_docs s')
  end.
Proof.
  intros E. split; [vm_compute; congruence|].
  exact (proj1 (proj2 (@mem_store_refines E empty_mem [] 0
           [("project", JStr "p"); ("issue_title", JStr "t"); ("issue_text", JStr "x");
            ("created_by", JStr "u")] JUndefined [] empty_mem_wf))).
Defined.

End MemStore.

(** Every document is stored under its own [_id]. *)
Definition keys_ok (m : gmap N issue) : Prop := map_Forall (fun i d => _id d = i) m.
