(* ===== verification/Handlers.v ===== *)
(** * The route handlers of [src/routes/api.js]

    [app.route('/api/issues/:project')] registers four handlers.  Each is
    modelled as a function of the request's path parameter, query or body,
    the current time (for [new Date()] and the schema's [Date.now]
    defaults) and the store, returning the reply and the new store.  A
    reply is what the handler passes to [res.send] or [res.json]; a handler
    that takes the [if (err) return console.log(err)] exit sends nothing
    ([NoReply]): the request is left unanswered.

    The handlers are written against the [IssueStore] interface of
    [Store.v]; their theorems hold of every store that implements it. *)

From S2P Require Import Prelude JsValue IssueModel Store.

Local Open Scope string_scope.

Inductive reply :=
| Send (body : jsval)      (* res.send(body) *)
| Json (body : jsval)      (* res.json(body) *)
| NoReply.                 (* the error was logged; nothing is sent *)

(** The nine fields a handler copies out of a stored issue (lines 28-38
    and 67-77); [project] is not among them. *)
Definition issue_view (issue : issue) : jsval :=
  JObj [("_id", JOid (_id issue));
        ("issue_title", JStr (issue_title issue));
        ("issue_text", JStr (issue_text issue));
        ("created_on", JDate (created_on issue));
        ("updated_on", JDate (updated_on issue));
        ("created_by", JStr (created_by issue));
        ("assigned_to", JStr (assigned_to issue));
        ("open", JBool (open issue));
        ("status_text", JStr (status_text issue))].

Section Handlers.
Context `{JsEngine} {S : Type} `{!IssueStore S}.

(** GET (lines 15-43). *)
Definition get_handler (project : string) (query : jsobj) (s : S) : reply * S :=
  let query := obj_set "project" (JStr project) query in
  match st_find s query with
  | None => (NoReply, s)
  | Some issues =>
      if Nat.eqb (length issues) 0 then (Send (JStr "No issues found"), s)
      else (Send (JArr (map issue_view issues)), s)
  end.

(** POST (lines 45-79). *)
Definition post_handler (now : Z) (project : string) (body : jsobj) (s : S) : reply * S :=
  let issue_title := obj_get body "issue_title" in
  let issue_text := obj_get body "issue_text" in
  let created_by := obj_get body "created_by" in
  let assigned_to := obj_get body "assigned_to" in
  let status_text := obj_get body "status_text" in
  if negb (truthy issue_title) || negb (truthy issue_text) || negb (truthy created_by) then
    (Json (JObj [("error", JStr "required field(s) missing")]), s)
  else
    let newIssue := [("project", JStr project);
                     ("issue_title", issue_title);
                     ("issue_text", issue_text);
                     ("created_by", created_by);
                     ("assigned_to", js_or assigned_to (JStr ""));
                     ("status_text", js_or status_text (JStr ""))] in
    match st_save s now newIssue with
    | None => (NoReply, s)
    | Some (issue, s') => (Json (issue_view issue), s')
    end.

(** PUT (lines 81-113).  [updateIssue] is [req.body] itself, mutated in
    place: the falsy entries are deleted, then [project] and [updated_on]
    are set. *)
Definition put_handler (now : Z) (project : string) (body : jsobj) (s : S) : reply * S :=
  if negb (truthy (obj_get body "_id")) then
    (Json (JObj [("error", JStr "missing _id")]), s)
  else
    let updateIssue := drop_falsy body in
    if Nat.eqb (length (obj_keys updateIssue)) 1 && truthy (obj_get updateIssue "_id") then
      (Json (JObj [("error", JStr "no update field(s) sent");
                   ("_id", obj_get updateIssue "_id")]), s)
    else
      let updateIssue := obj_set "project" (JStr project) updateIssue in
      let updateIssue := obj_set "updated_on" (JDate now) updateIssue in
      match st_update s (obj_get updateIssue "_id") updateIssue with
      | None => (NoReply, s)
      | Some (Some updatedIss, s') =>
          (Json (JObj [("result", JStr "successfully updated"); ("_id", JOid (_id updatedIss))]), s')
      | Some (None, s') =>
          (Json (JObj [("error", JStr "could not update"); ("_id", obj_get updateIssue "_id")]), s')
      end.

(** DELETE (lines 115-131).  The path's [project] is read but unused. *)
Definition delete_handler (project : string) (body : jsobj) (s : S) : reply * S :=
  let issue := obj_get body "_id" in
  if negb (truthy issue) then (Json (JObj [("error", JStr "missing _id")]), s)
  else
    match st_delete s issue with
    | None => (NoReply, s)
    | Some (Some data, s') => (Json (JObj [("result", JStr "successfully deleted"); ("_id", issue)]), s')
    | Some (None, s') => (Json (JObj [("error", JStr "could not delete"); ("_id", issue)]), s')
    end.
End Handlers.

(** ** The route *)

Inductive method := GET | POST | PUT | DELETE.

Record request := {
  req_method : method;
  req_project : string;     (* req.params.project *)
  req_query : jsobj;        (* req.query *)
  req_body : jsobj          (* req.body *)
}.

(** [app.route('/api/issues/:project').get(...).post(...).put(...).delete(...)]
    (lines 13, 15, 45, 81, 115), handling one request at time [now]. *)
Definition api `{JsEngine} {S : Type} {store : IssueStore S}
    (now : Z) (req : request) (s : S) : reply * S :=
  match req_method req with
  | GET => get_handler (req_project req) (req_query req) s
  | POST => post_handler now (req_project req) (req_body req) s
  | PUT => put_handler now (req_project req) (req_body req) s
  | DELETE => delete_handler (req_project req) (req_body req) s
  end.

(** ** The update object of the PUT handler *)

(** [updateIssue] as the PUT handler passes it to [findByIdAndUpdate]. *)
Definition put_patch (project : string) (now : Z) (body : jsobj) : jsobj :=
  obj_set "updated_on" (JDate now) (obj_set "project" (JStr project) (drop_falsy body)).

Section PutPatch.
Context `{JsEngine}.
Implicit Types (body : jsobj).

Lemma put_patch_wf project now body : obj_wf body -> obj_wf (put_patch project now body).
Proof. intros Hwf. unfold put_patch. rewrite drop_falsy_filter; [|done]. eauto with issue. Qed.

(** What the update object holds: the path's project, the time of the
    request, and the truthy entries of the body. *)
Lemma put_patch_lookup project now body k :
  obj_wf body ->
  obj_lookup (put_patch project now body) k =
    if String.eqb k "updated_on" then Some (JDate now)
    else if String.eqb k "project" then Some (JStr project)
    else match obj_lookup body k with
         | Some v => if truthy v then Some v else None
         | None => None
         end.
Proof.
  intros Hwf. unfold put_patch.
  destruct (String.eqb_spec k "updated_on") as [->|Hu]; [by rewrite obj_lookup_set_eq|].
  rewrite obj_lookup_set_ne by congruence.
  destruct (String.eqb_spec k "project") as [->|Hp]; [by rewrite obj_lookup_set_eq|].
  rewrite obj_lookup_set_ne by congruence.
  rewrite drop_falsy_filter, obj_lookup_filter by done. done.
Qed.

Lemma put_patch_id project now body :
  obj_wf body -> obj_get (put_patch project now body) "_id" =
                 if truthy (obj_get body "_id") then obj_get body "_id" else JUndefined.
Proof.
  intros Hwf. unfold obj_get. rewrite put_patch_lookup by done. simpl.
  by destruct (obj_lookup body "_id") as [v|]; [destruct (truthy v)|].
Qed.

(** Every value of the update object casts when every truthy path value
    of the body does. *)
Lemma put_patch_casts project now body :
  obj_wf body ->
  (forall k v t, obj_lookup body k = Some v -> truthy v = true ->
                 schema_path k = Some t -> is_Some (cast t v)) ->
  is_Some (cast_update (put_patch project now body)).
Proof.
  intros Hwf Hall. apply cast_update_Some. intros k v t Hin Ht.
  apply obj_lookup_wf_In in Hin; [|by apply put_patch_wf].
  rewrite put_patch_lookup in Hin by done.
  destruct (String.eqb_spec k "updated_on") as [->|]; [injection Hin as <-; injection Ht as <-; by eexists|].
  destruct (String.eqb_spec k "project") as [->|]; [injection Hin as <-; injection Ht as <-; by eexists|].
  destruct (obj_lookup body k) as [w|] eqn:E; [|done].
  destruct (truthy w) eqn:Hw; [|done]. injection Hin as <-. by eapply Hall.
Qed.

(** The number of keys left by the loop when [_id] and another truthy
    field are present. *)
Lemma drop_falsy_many_keys body k v :
  obj_wf body -> truthy (obj_get body "_id") = true ->
  k <> "_id" -> obj_lookup body k = Some v -> truthy v = true ->
  Nat.eqb (length (obj_keys (drop_falsy body))) 1 = false.
Proof.
  intros Hwf Hid Hk Hl Hv. rewrite drop_falsy_filter by done.
  unfold obj_get in Hid. destruct (obj_lookup body "_id") as [vid|] eqn:Eid; [|done].
  assert (Hi1 : In ("_id", vid) (List.filter (fun kv => truthy kv.2) body))
    by (apply filter_In; split; [by apply obj_lookup_In|done]).
  assert (Hi2 : In (k, v) (List.filter (fun kv => truthy kv.2) body))
    by (apply filter_In; split; [by apply obj_lookup_In|done]).
  destruct (List.filter _ body) as [|x [|y l]]; simpl in *; [done| |done].
  destruct Hi1 as [H1|[]], Hi2 as [H2|[]]. rewrite H1 in H2. injection H2 as H2. congruence.
Qed.

(** When [_id] is the only truthy entry, the loop leaves one key. *)
Lemma drop_falsy_only_id body :
  obj_wf body -> truthy (obj_get body "_id") = true ->
  (forall k v, k <> "_id" -> obj_lookup body k = Some v -> truthy v = false) ->
  Nat.eqb (length (obj_keys (drop_falsy body))) 1 = true.
Proof.
  intros Hwf Hid Hrest. rewrite drop_falsy_filter by done.
  assert (Hkeys : forall kv, In kv (List.filter (fun kv => truthy kv.2) body) -> kv.1 = "_id").
  { intros [k v] Hin. apply filter_In in Hin as [Hin Hv]. simpl in *.
    destruct (String.eqb_spec k "_id") as [|Hk]; [done|].
    rewrite (Hrest k v Hk) in Hv; [done|]. by apply obj_lookup_wf_In. }
  pose proof (obj_wf_filter (fun kv => truthy kv.2) body Hwf) as Hnd.
  unfold obj_get in Hid. destruct (obj_lookup body "_id") as [vid|] eqn:Eid; [|done].
  assert (Hi1 : In ("_id", vid) (List.filter (fun kv => truthy kv.2) body))
    by (apply filter_In; split; [by apply obj_lookup_In|done]).
  unfold obj_wf, obj_keys in *.
  destruct (List.filter _ body) as [|x [|y l]]; simpl in *; [done|done|].
  apply NoDup_cons in Hnd as [Hx _]. exfalso. apply Hx.
  rewrite (Hkeys x (or_introl eq_refl)), <- (Hkeys y (or_intror (or_introl eq_refl))).
  apply list_elem_of_In. by left.
Qed.
(** The document updated with the PUT's update object keeps the id the
    body names. *)
Lemma apply_put_patch_id project now body ops d i :
  obj_wf body -> truthy (obj_get body "_id") = true -> cast_objectid (obj_get body "_id") = Some i ->
  cast_update (put_patch project now body) = Some ops -> _id (apply_update ops d) = i.
Proof.
  intros Hwf Hid Hcast Hops.
  pose proof (apply_cast_update_get _ ops d "_id" (put_patch_wf project now body Hwf) Hops) as Hg.
  rewrite put_patch_lookup, doc_get_id in Hg by done. simpl in Hg.
  unfold obj_get in Hid, Hcast. destruct (obj_lookup body "_id") as [vid|]; [|done].
  rewrite Hid in Hg. simpl in Hg. rewrite Hcast in Hg. by injection Hg.
Qed.
End PutPatch.

(** ** PUT: behaviour on every branch *)

Section PutProps.
Context `{JsEngine} {S : Type} `{!IssueStore S, !IssueStoreSpec S}.
Implicit Types (body : jsobj) (s : S).

Lemma drop_falsy_get_truthy body k :
  obj_wf body -> truthy (obj_get body k) = true -> obj_get (drop_falsy body) k = obj_get body k.
Proof.
  intros Hwf Ht. unfold obj_get in *. rewrite drop_falsy_filter, obj_lookup_filter by done.
  destruct (obj_lookup body k); simpl in *; by rewrite ?Ht.
Qed.

(** When [_id] and another field are truthy, the handler calls
    [findByIdAndUpdate] with the body's [_id] and [put_patch]. *)
Lemma put_handler_reaches_update now project body s k v :
  obj_wf body -> truthy (obj_get body "_id") = true ->
  k <> "_id" -> obj_lookup body k = Some v -> truthy v = true ->
  put_handler now project body s =
    match st_update s (obj_get body "_id") (put_patch project now body) with
    | None => (NoReply, s)
    | Some (Some u, s') =>
        (Json (JObj [("result", JStr "successfully updated"); ("_id", JOid (_id u))]), s')
    | Some (None, s') =>
        (Json (JObj [("error", JStr "could not update"); ("_id", obj_get body "_id")]), s')
    end.
Proof.
  intros Hwf Hid Hk Hl Hv. unfold put_handler. rewrite Hid. simpl.
  rewrite (drop_falsy_many_keys body k v) by done. simpl.
  fold (put_patch project now body). rewrite put_patch_id, Hid by done. done.
Qed.

(** C9: a PUT whose body has no truthy [_id] replies
    [{error: 'missing _id'}] and leaves the store unchanged. *)
Theorem put_handler_missing_id now project body s :
  truthy (obj_get body "_id") = false ->
  put_handler now project body s = (Json (JObj [("error", JStr "missing _id")]), s).
Proof. intros Hf. unfold put_handler. by rewrite Hf. Qed.

(** C10: a PUT whose only truthy entry is [_id] replies
    [{error: 'no update field(s) sent', _id}] with the body's [_id], and
    leaves the store unchanged. *)
Theorem put_handler_no_fields now project body s :
  obj_wf body -> truthy (obj_get body "_id") = true ->
  (forall k v, k <> "_id" -> obj_lookup body k = Some v -> truthy v = false) ->
  put_handler now project body s =
    (Json (JObj [("error", JStr "no update field(s) sent"); ("_id", obj_get body "_id")]), s).
Proof.
  intros Hwf Hid Hrest. unfold put_handler. rewrite Hid. simpl.
  rewrite drop_falsy_only_id, drop_falsy_get_truthy, Hid by done. done.
Qed.

(** The successful PUT, with the stored issue it leaves. *)
Lemma put_handler_updated_doc now project body s i old k0 v0 :
  st_wf s -> keys_ok (st_docs s) -> obj_wf body ->
  truthy (obj_get body "_id") = true -> cast_objectid (obj_get body "_id") = Some i ->
  k0 <> "_id" -> obj_lookup body k0 = Some v0 -> truthy v0 = true ->
  (forall k v t, obj_lookup body k = Some v -> truthy v = true ->
                 schema_path k = Some t -> is_Some (cast t v)) ->
  st_docs s !! i = Some old ->
  exists s' new,
    put_handler now project body s =
      (Json (JObj [("result", JStr "successfully updated"); ("_id", JOid i)]), s') /\
    st_wf s' /\ st_docs s' = <[i := new]> (st_docs s) /\
    forall k, doc_get new k =
      if String.eqb k "updated_on" then Some (FDate now)
      else if String.eqb k "project" then Some (FString project)
      else match obj_lookup body k, schema_path k with
           | Some v, Some t => if truthy v then cast t v else doc_get old k
           | _, _ => doc_get old k
           end.
Proof.
  intros Hwf Hkeys Hbwf Hid Hcast Hk0 Hl0 Hv0 Hall Hold.
  rewrite (put_handler_reaches_update now project body s k0 v0) by done.
  destruct (put_patch_casts project now body Hbwf Hall) as [ops Hops].
  assert (Hget : forall k, doc_get (apply_update ops old) k =
    match obj_lookup (put_patch project now body) k, schema_path k with
    | Some v, Some t => cast t v | _, _ => doc_get old k end)
    by (intros; by apply apply_cast_update_get; [apply put_patch_wf|]).
  assert (Hsame : _id (apply_update ops old) = _id old)
    by (rewrite (apply_put_patch_id project now body ops old i), (Hkeys i old Hold); done).
  pose proof (st_update_spec s (obj_get body "_id") (put_patch project now body) Hwf) as Hspec.
  unfold ref_update in Hspec. rewrite Hcast, Hops in Hspec. simpl in Hspec.
  rewrite Hold in Hspec. rewrite decide_True in Hspec by done.
  destruct (st_update _ _ _) as [[r s']|]; [|done].
  destruct Hspec as [Hwf' Heq]. injection Heq as <- Hdocs.
  exists s', (apply_update ops old). split; [by rewrite (Hkeys i old Hold)|].
  split; [done|]. split; [done|].
  intros k. rewrite Hget, put_patch_lookup by done.
  destruct (String.eqb_spec k "updated_on") as [->|]; [done|].
  destruct (String.eqb_spec k "project") as [->|]; [done|].
  destruct (obj_lookup body k) as [v|]; [|done]. by destruct (truthy v), (schema_path k).
Qed.

(** C1: a PUT on a stored issue with a valid id and at least one other
    truthy field replies [{result: 'successfully updated', _id}]; the
    stored issue afterwards holds the path's [project], [updated_on] set
    to the time of the request, the cast value of every truthy schema
    field of the body, and its old value on every other path; no other
    issue changes. *)
Theorem put_handler_updated now project body s i old k0 v0 :
  st_wf s -> keys_ok (st_docs s) -> obj_wf body ->
  truthy (obj_get body "_id") = true -> cast_objectid (obj_get body "_id") = Some i ->
  k0 <> "_id" -> obj_lookup body k0 = Some v0 -> truthy v0 = true ->
  (forall k v t, obj_lookup body k = Some v -> truthy v = true ->
                 schema_path k = Some t -> is_Some (cast t v)) ->
  st_docs s !! i = Some old ->
  exists s' new,
    put_handler now project body s =
      (Json (JObj [("result", JStr "successfully updated"); ("_id", JOid i)]), s') /\
    st_wf s' /\ st_docs s' = <[i := new]> (st_docs s) /\
    forall k, doc_get new k =
      if String.eqb k "updated_on" then Some (FDate now)
      else if String.eqb k "project" then Some (FString project)
      else match obj_lookup body k, schema_path k with
           | Some v, Some t => if truthy v then cast t v else doc_get old k
           | _, _ => doc_get old k
           end.
Proof. apply put_handler_updated_doc. Qed.

(** C11: a PUT with a valid id that names no stored issue replies
    [{error: 'could not update', _id}] with the body's [_id], and the
    store keeps the same issues. *)
Theorem put_handler_not_found now project body s i k0 v0 :
  st_wf s -> obj_wf body ->
  truthy (obj_get body "_id") = true -> cast_objectid (obj_get body "_id") = Some i ->
  k0 <> "_id" -> obj_lookup body k0 = Some v0 -> truthy v0 = true ->
  (forall k v t, obj_lookup body k = Some v -> truthy v = true ->
                 schema_path k = Some t -> is_Some (cast t v)) ->
  st_docs s !! i = None ->
  exists s',
    put_handler now project body s =
      (Json (JObj [("error", JStr "could not update"); ("_id", obj_get body "_id")]), s') /\
    st_wf s' /\ st_docs s' = st_docs s.
Proof.
  intros Hwf Hbwf Hid Hcast Hk0 Hl0 Hv0 Hall Hnone.
  rewrite (put_handler_reaches_update now project body s k0 v0) by done.
  destruct (put_patch_casts project now body Hbwf Hall) as [ops Hops].
  pose proof (st_update_spec s (obj_get body "_id") (put_patch project now body) Hwf) as Hspec.
  unfold ref_update in Hspec. rewrite Hcast, Hops in Hspec. simpl in Hspec. rewrite Hnone in Hspec.
  destruct (st_update _ _ _) as [[r s']|]; [|done].
  destruct Hspec as [Hwf' Heq]. injection Heq as <- Hdocs. by exists s'.
Qed.

(** C12: a PUT whose [_id] is truthy but is not an ObjectId (with another
    truthy field) gets no reply at all: the cast error reaches the
    callback's [if (err) return console.log(err)].  The specification
    asks for [{error: 'could not update', _id}] here. *)
Theorem put_handler_malformed_id now project body s k0 v0 :
  st_wf s -> obj_wf body ->
  truthy (obj_get body "_id") = true -> cast_objectid (obj_get body "_id") = None ->
  k0 <> "_id" -> obj_lookup body k0 = Some v0 -> truthy v0 = true ->
  put_handler now project body s = (NoReply, s).
Proof.
  intros Hwf Hbwf Hid Hcast Hk0 Hl0 Hv0.
  rewrite (put_handler_reaches_update now project body s k0 v0) by done.
  pose proof (st_update_spec s (obj_get body "_id") (put_patch project now body) Hwf) as Hspec.
  unfold ref_update in Hspec. rewrite Hcast in Hspec.
  destruct (st_update _ _ _) as [[r s']|]; [by destruct Hspec|done].
Qed.

(** C18: the update object is cast before the id is looked up: a PUT
    with a valid id and a truthy field that does not cast to its schema
    type (say [open=maybe]) gets no reply, whether or not the id names a
    stored issue, where a castable body on a missing id gets
    [{error: 'could not update', _id}]. *)
Theorem put_handler_uncastable_field now project body s k v t :
  st_wf s -> obj_wf body -> truthy (obj_get body "_id") = true ->
  k <> "_id" -> k <> "project" -> k <> "updated_on" ->
  obj_lookup body k = Some v -> truthy v = true ->
  schema_path k = Some t -> cast t v = None ->
  put_handler now project body s = (NoReply, s).
Proof.
  intros Hwf Hbwf Hid Hk Hkp Hku Hl Hv Ht Hc.
  rewrite (put_handler_reaches_update now project body s k v) by done.
  assert (Hnone : cast_update (put_patch project now body) = None).
  { apply (cast_update_None _ k v t); [|done|done].
    apply obj_lookup_In. rewrite put_patch_lookup by done.
    rewrite (proj2 (String.eqb_neq _ _) Hku), (proj2 (String.eqb_neq _ _) Hkp), Hl, Hv.
    done. }
  pose proof (st_update_spec s (obj_get body "_id") (put_patch project now body) Hwf) as Hspec.
  unfold ref_update in Hspec. rewrite Hnone in Hspec.
  destruct (cast_objectid _); simpl in Hspec;
    destruct (st_update _ _ _) as [[r s']|]; try done; by destruct Hspec.
Qed.
End PutProps.

(** ** DELETE: behaviour on every branch *)

Section DeleteProps.
Context `{JsEngine} {S : Type} `{!IssueStore S, !IssueStoreSpec S}.
Implicit Types (body : jsobj) (s : S).

(** C15: a DELETE whose body has no truthy [_id] replies
    [{error: 'missing _id'}] and leaves the store unchanged. *)
Theorem delete_handler_missing_id project body s :
  truthy (obj_get body "_id") = false ->
  delete_handler project body s = (Json (JObj [("error", JStr "missing _id")]), s).
Proof. intros Hf. unfold delete_handler. by rewrite Hf. Qed.

(** The successful DELETE, with the store it leaves. *)
Lemma delete_handler_removes project body s i d :
  st_wf s -> truthy (obj_get body "_id") = true ->
  cast_objectid (obj_get body "_id") = Some i -> st_docs s !! i = Some d ->
  exists s',
    delete_handler project body s =
      (Json (JObj [("result", JStr "successfully deleted"); ("_id", obj_get body "_id")]), s') /\
    st_wf s' /\ st_docs s' = delete i (st_docs s).
Proof.
  intros Hwf Hid Hcast Hd. unfold delete_handler. rewrite Hid. simpl.
  pose proof (st_delete_spec s (obj_get body "_id") Hwf) as Hspec.
  unfold ref_delete in Hspec. rewrite Hcast in Hspec. simpl in Hspec. rewrite Hd in Hspec.
  destruct (st_delete _ _) as [[r s']|]; [|done].
  destruct Hspec as [Hwf' Heq]. injection Heq as <- Hdocs. by exists s'.
Qed.

(** C5: a DELETE of a stored issue replies
    [{result: 'successfully deleted', _id}] echoing the body's [_id], and
    removes exactly that issue, whatever its project. *)
Theorem delete_handler_deleted project body s i d :
  st_wf s -> truthy (obj_get body "_id") = true ->
  cast_objectid (obj_get body "_id") = Some i -> st_docs s !! i = Some d ->
  exists s',
    delete_handler project body s =
      (Json (JObj [("result", JStr "successfully deleted"); ("_id", obj_get body "_id")]), s') /\
    st_wf s' /\ st_docs s' = delete i (st_docs s).
Proof. apply delete_handler_removes. Qed.

(** C16: a DELETE with a valid id that names no stored issue replies
    [{error: 'could not delete', _id}] and the store keeps its issues. *)
Theorem delete_handler_not_found project body s i :
  st_wf s -> truthy (obj_get body "_id") = true ->
  cast_objectid (obj_get body "_id") = Some i -> st_docs s !! i = None ->
  exists s',
    delete_handler project body s =
      (Json (JObj [("error", JStr "could not delete"); ("_id", obj_get body "_id")]), s') /\
    st_wf s' /\ st_docs s' = st_docs s.
Proof.
  intros Hwf Hid Hcast Hd. unfold delete_handler. rewrite Hid. simpl.
  pose proof (st_delete_spec s (obj_get body "_id") Hwf) as Hspec.
  unfold ref_delete in Hspec. rewrite Hcast in Hspec. simpl in Hspec. rewrite Hd in Hspec.
  destruct (st_delete _ _) as [[r s']|]; [|done].
  destruct Hspec as [Hwf' Heq]. injection Heq as <- Hdocs. by exists s'.
Qed.

(** C17: a DELETE whose [_id] is truthy but not an ObjectId gets no
    reply (the cast error is only logged); the specification asks for
    [{error: 'could not delete', _id}]. *)
Theorem delete_handler_malformed_id project body s :
  st_wf s -> truthy (obj_get body "_id") = true -> cast_objectid (obj_get body "_id") = None ->
  delete_handler project body s = (NoReply, s).
Proof.
  intros Hwf Hid Hcast. unfold delete_handler. rewrite Hid. simpl.
  pose proof (st_delete_spec s (obj_get body "_id") Hwf) as Hspec.
  unfold ref_delete in Hspec. rewrite Hcast in Hspec.
  destruct (st_delete _ _) as [[r s']|]; [by destruct Hspec|done].
Qed.

End DeleteProps.

(** ** POST: behaviour on every branch *)

(** The object the POST handler passes to [new Issue(...)]. *)
Definition post_draft (project : string) (body : jsobj) : jsobj :=
  [("project", JStr project);
   ("issue_title", obj_get body "issue_title");
   ("issue_text", obj_get body "issue_text");
   ("created_by", obj_get body "created_by");
   ("assigned_to", js_or (obj_get body "assigned_to") (JStr ""));
   ("status_text", js_or (obj_get body "status_text") (JStr ""))].

Section PostProps.
Context `{JsEngine} {S : Type} `{!IssueStore S, !IssueStoreSpec S}.
Implicit Types (body : jsobj) (s : S).

(** The document built from the draft when its five fields cast. *)
Lemma post_new_issue i now project body t x c a st :
  cast_string (obj_get body "issue_title") = Some t ->
  cast_string (obj_get body "issue_text") = Some x ->
  cast_string (obj_get body "created_by") = Some c ->
  cast_string (js_or (obj_get body "assigned_to") (JStr "")) = Some a ->
  cast_string (js_or (obj_get body "status_text") (JStr "")) = Some st ->
  new_issue i now (post_draft project body) =
    let d := {| _id := i; project := project; issue_title := t; issue_text := x;
                created_by := c; assigned_to := a; status_text := st; open := true;
                created_on := now; updated_on := now |} in
    if issue_valid d then Some d else None.
Proof.
  intros Ht Hx Hc Ha Hs. unfold new_issue, post_draft. simpl.
  rewrite Ht, Hx, Hc, Ha, Hs. done.
Qed.

(** C13: a POST missing any of [issue_title], [issue_text], [created_by]
    (absent or falsy) replies [{error: 'required field(s) missing'}] and
    creates nothing. *)
Theorem post_handler_missing now project body s :
  truthy (obj_get body "issue_title") && truthy (obj_get body "issue_text")
    && truthy (obj_get body "created_by") = false ->
  post_handler now project body s =
    (Json (JObj [("error", JStr "required field(s) missing")]), s).
Proof.
  intros Hf. unfold post_handler.
  destruct (truthy (obj_get body "issue_title")), (truthy (obj_get body "issue_text")),
    (truthy (obj_get body "created_by")); done.
Qed.

Lemma post_handler_save_ok now project body s t x c a st :
  st_wf s -> project <> "" ->
  truthy (obj_get body "issue_title") = true ->
  truthy (obj_get body "issue_text") = true ->
  truthy (obj_get body "created_by") = true ->
  cast_string (obj_get body "issue_title") = Some t ->
  cast_string (obj_get body "issue_text") = Some x ->
  cast_string (obj_get body "created_by") = Some c ->
  cast_string (js_or (obj_get body "assigned_to") (JStr "")) = Some a ->
  cast_string (js_or (obj_get body "status_text") (JStr "")) = Some st ->
  exists s' i,
    let d := {| _id := i; project := project; issue_title := t; issue_text := x;
                created_by := c; assigned_to := a; status_text := st; open := true;
                created_on := now; updated_on := now |} in
    post_handler now project body s = (Json (issue_view d), s') /\
    st_wf s' /\ st_docs s !! i = None /\ st_docs s' = <[i := d]> (st_docs s).
Proof.
  intros Hwf Hp Htt Htx Htc Ht Hx Hc Ha Hs.
  assert (Hsave : forall i, st_docs s !! i = None ->
    ref_save (st_docs s) i now (post_draft project body) =
    Some ({| _id := i; project := project; issue_title := t; issue_text := x;
             created_by := c; assigned_to := a; status_text := st; open := true;
             created_on := now; updated_on := now |},
          <[i := {| _id := i; project := project; issue_title := t; issue_text := x;
             created_by := c; assigned_to := a; status_text := st; open := true;
             created_on := now; updated_on := now |}]> (st_docs s))).
  { intros i Hi. unfold ref_save. rewrite (post_new_issue i now project body t x c a st) by done.
    unfold issue_valid. simpl.
    rewrite (proj2 (String.eqb_neq _ _) Hp),
      (proj2 (String.eqb_neq _ _) (cast_string_truthy _ _ Htt Ht)),
      (proj2 (String.eqb_neq _ _) (cast_string_truthy _ _ Htx Hx)),
      (proj2 (String.eqb_neq _ _) (cast_string_truthy _ _ Htc Hc)).
    simpl. by rewrite Hi. }
  unfold post_handler. rewrite Htt, Htx, Htc. simpl. fold (post_draft project body).
  pose proof (st_save_spec s now (post_draft project body) Hwf) as Hspec.
  destruct (st_save _ _ _) as [[d s']|].
  - destruct Hspec as (Hwf' & i & Hi & Heq). rewrite Hsave in Heq by done.
    injection Heq as <- Hdocs. by exists s', i.
  - destruct Hspec as (i & Hi & Heq). by rewrite Hsave in Heq.
Qed.

(** C2: a POST with the three required fields truthy and every field a
    string, number or boolean creates one issue under a fresh id: it
    holds the path's project, the cast fields, [assigned_to] and
    [status_text] defaulted to [""], [open = true] and both dates equal
    to the time of the request; the reply is that issue's nine fields. *)
Theorem post_handler_created now project body s t x c a st :
  st_wf s -> project <> "" ->
  truthy (obj_get body "issue_title") = true ->
  truthy (obj_get body "issue_text") = true ->
  truthy (obj_get body "created_by") = true ->
  cast_string (obj_get body "issue_title") = Some t ->
  cast_string (obj_get body "issue_text") = Some x ->
  cast_string (obj_get body "created_by") = Some c ->
  cast_string (js_or (obj_get body "assigned_to") (JStr "")) = Some a ->
  cast_string (js_or (obj_get body "status_text") (JStr "")) = Some st ->
  exists s' i,
    let d := {| _id := i; project := project; issue_title := t; issue_text := x;
                created_by := c; assigned_to := a; status_text := st; open := true;
                created_on := now; updated_on := now |} in
    post_handler now project body s = (Json (issue_view d), s') /\
    st_wf s' /\ st_docs s !! i = None /\ st_docs s' = <[i := d]> (st_docs s).
Proof. apply post_handler_save_ok. Qed.

(** C14: a POST whose required field is truthy but does not cast to a
    string (an array, as a repeated form field gives, or an object) is
    answered by nothing: the [save] error is only logged. *)
Theorem post_handler_uncastable now project body s :
  st_wf s ->
  truthy (obj_get body "issue_title") = true ->
  truthy (obj_get body "issue_text") = true ->
  truthy (obj_get body "created_by") = true ->
  cast_string (obj_get body "issue_title") = None ->
  post_handler now project body s = (NoReply, s).
Proof.
  intros Hwf Htt Htx Htc Hct. unfold post_handler. rewrite Htt, Htx, Htc. simpl.
  fold (post_draft project body).
  assert (Hnone : forall i, new_issue i now (post_draft project body) = None)
    by (intros i; unfold new_issue, post_draft; simpl; by rewrite Hct).
  pose proof (st_save_spec s now (post_draft project body) Hwf) as Hspec.
  destruct (st_save _ _ _) as [[d s']|]; [|done].
  destruct Hspec as (_ & i & _ & Heq). unfold ref_save in Heq. by rewrite Hnone in Heq.
Qed.
End PostProps.

(** ** GET: behaviour on every branch *)

Section GetProps.
Context `{JsEngine} {S : Type} `{!IssueStore S, !IssueStoreSpec S}.
Implicit Types (q : jsobj) (s : S).

(** The documents of a store that satisfy a filter. *)
Definition matching_docs (m : gmap N issue) (cs : list cond) : list issue :=
  List.filter (matches cs) (map snd (map_to_list m)).

Lemma matching_docs_In m cs d :
  In d (matching_docs m cs) <-> matches cs d = true /\ exists i, m !! i = Some d.
Proof.
  unfold matching_docs. rewrite filter_In, in_map_iff. split.
  - intros [([i d'] & <- & Hin) Hm]. split; [done|]. exists i.
    apply elem_of_map_to_list, list_elem_of_In. done.
  - intros [Hm [i Hi]]. split; [|done]. exists (i, d). split; [done|].
    apply list_elem_of_In, elem_of_map_to_list. done.
Qed.

Lemma get_handler_cases project q s :
  st_wf s ->
  match cast_filter (obj_set "project" (JStr project) q) with
  | None => get_handler project q s = (NoReply, s)
  | Some cs =>
      exists l, l ≡ₚ matching_docs (st_docs s) cs /\
        get_handler project q s =
          (if Nat.eqb (length l) 0 then Send (JStr "No issues found")
           else Send (JArr (map issue_view l)), s)
  end.
Proof.
  intros Hwf. unfold get_handler.
  pose proof (st_find_spec s (obj_set "project" (JStr project) q) Hwf) as Hspec.
  unfold ref_find in Hspec.
  destruct (cast_filter _) as [cs|]; simpl in Hspec;
    destruct (st_find _ _) as [l|]; try done.
  exists l. split; [done|]. by destruct (Nat.eqb (length l) 0).
Qed.

(** C3: the GET handler replies with the issues of the store that
    satisfy the query with [project] set to the path's project, in the
    store's order: the string ['No issues found'] when there is none,
    and no reply at all when a query value does not cast.  The store is
    not changed. *)
Theorem get_handler_spec project q s :
  st_wf s ->
  match cast_filter (obj_set "project" (JStr project) q) with
  | None => get_handler project q s = (NoReply, s)
  | Some cs =>
      exists l, l ≡ₚ matching_docs (st_docs s) cs /\
        get_handler project q s =
          (if Nat.eqb (length l) 0 then Send (JStr "No issues found")
           else Send (JArr (map issue_view l)), s)
  end.
Proof. apply get_handler_cases. Qed.

(** C4: every issue listed by GET is stored, belongs to the path's
    project, and holds on every other string field the query names
    exactly the queried string. *)
Theorem get_handler_listed project q s vs s' :
  st_wf s -> get_handler project q s = (Send (JArr vs), s') ->
  exists l, vs = map issue_view l /\
    forall d, In d l ->
      (exists i, st_docs s !! i = Some d) /\ IssueModel.project d = project /\
      forall k x, k <> "project" -> obj_lookup q k = Some (JStr x) ->
                  schema_path k = Some PString -> doc_get d k = Some (FString x).
Proof.
  intros Hwf Hget. pose proof (get_handler_cases project q s Hwf) as Hspec.
  destruct (cast_filter _) as [cs|] eqn:Hcs; [|congruence].
  destruct Hspec as (l & Hperm & Heq). rewrite Heq in Hget.
  destruct (Nat.eqb (length l) 0); [discriminate|]. injection Hget as Hvs _. subst vs.
  exists l. split; [done|]. intros d Hd.
  assert (Hin : In d (matching_docs (st_docs s) cs)).
  { apply list_elem_of_In. rewrite <- Hperm. by apply list_elem_of_In. }
  apply matching_docs_In in Hin as [Hm Hst]. split; [done|]. split.
  - pose proof (matches_string_field _ cs d "project" project Hcs Hm
                  (obj_lookup_set_eq _ _ _) eq_refl) as Hp.
    by injection Hp.
  - intros k x Hk Hl Ht. eapply matches_string_field; [done|done| |done].
    by rewrite obj_lookup_set_ne by congruence.
Qed.
End GetProps.

(** ** Create, then list *)

Section RoundTrip.
Context `{JsEngine} {S : Type} `{!IssueStore S, !IssueStoreSpec S}.

(** C8: an issue created by POST is listed by a GET on the same
    project with no filter, with the nine fields the POST replied. *)
Theorem post_then_get now project body s t x c a st :
  st_wf s -> project <> "" ->
  truthy (obj_get body "issue_title") = true ->
  truthy (obj_get body "issue_text") = true ->
  truthy (obj_get body "created_by") = true ->
  cast_string (obj_get body "issue_title") = Some t ->
  cast_string (obj_get body "issue_text") = Some x ->
  cast_string (obj_get body "created_by") = Some c ->
  cast_string (js_or (obj_get body "assigned_to") (JStr "")) = Some a ->
  cast_string (js_or (obj_get body "status_text") (JStr "")) = Some st ->
  exists s' i vs,
    let d := {| _id := i; project := project; issue_title := t; issue_text := x;
                created_by := c; assigned_to := a; status_text := st; open := true;
                created_on := now; updated_on := now |} in
    post_handler now project body s = (Json (issue_view d), s') /\
    get_handler project [] s' = (Send (JArr vs), s') /\ In (issue_view d) vs.
Proof.
  intros Hwf Hp Htt Htx Htc Ht Hx Hc Ha Hs.
  destruct (post_handler_save_ok now project body s t x c a st) as (s' & i & Hpost & Hwf' & _ & Hdocs);
    [done..|].
  exists s', i. pose proof (get_handler_cases project [] s' Hwf') as Hget. simpl in Hget.
  destruct Hget as (l & Hperm & Hget).
  set (d := {| _id := i; project := project; issue_title := t; issue_text := x;
               created_by := c; assigned_to := a; status_text := st; open := true;
               created_on := now; updated_on := now |}) in *.
  assert (Hd : In d l).
  { apply list_elem_of_In. rewrite Hperm. apply list_elem_of_In, matching_docs_In.
    split; [simpl; by rewrite bool_decide_eq_true_2|].
    exists i. rewrite Hdocs. apply lookup_insert_eq. }
  destruct l as [|d' l']; [done|]. simpl in Hget.
  exists (map issue_view (d' :: l')). split; [done|]. split; [done|]. by apply in_map.
Qed.
End RoundTrip.

(** ** Concrete instances of the theorems *)

(** A decision procedure for the cast hypothesis of the PUT theorems. *)
Definition body_casts `{JsEngine} (body : jsobj) : bool :=
  forallb (fun kv => match schema_path kv.1 with
                     | Some t => negb (truthy kv.2) || bool_decide (is_Some (cast t kv.2))
                     | None => true
                     end) body.

Lemma body_casts_sound `{JsEngine} (body : jsobj) :
  body_casts body = true ->
  forall k v t, obj_lookup body k = Some v -> truthy v = true ->
                schema_path k = Some t -> is_Some (cast t v).
Proof.
  intros Hb k v t Hl Hv Ht. apply obj_lookup_In in Hl.
  unfold body_casts in Hb. rewrite forallb_forall in Hb. specialize (Hb _ Hl).
  simpl in Hb. rewrite Ht, Hv in Hb. simpl in Hb. by apply bool_decide_eq_true in Hb.
Qed.

Section Witnesses.
#[local] Existing Instance decimal_engine.
#[local] Existing Instances MemStore.mem_issue_store MemStore.mem_issue_store_spec.

Definition w_issue : issue :=
  {| _id := 1; project := "apitest"; issue_title := "t"; issue_text := "x"; created_by := "u";
     assigned_to := ""; status_text := ""; open := true; created_on := 0; updated_on := 0 |}.

Definition w_store : MemStore.mem :=
  {| MemStore.mem_docs := {[1%N := w_issue]}; MemStore.mem_next := 2 |}.

Lemma w_store_wf : st_wf w_store.
Proof.
  intros k [d Hd]. simpl in Hd. apply lookup_singleton_Some in Hd as [<- _]. simpl. lia.
Qed.

Lemma w_store_keys : keys_ok (st_docs w_store).
Proof. by apply map_Forall_singleton. Qed.

Definition w_body : jsobj := [("_id", JStr (oid_to_hex 1)); ("status_text", JStr "done")].
Definition w_body_missing : jsobj := [("_id", JStr (oid_to_hex 7)); ("status_text", JStr "done")].
Definition w_body_bad : jsobj := [("_id", JStr "not-an-id"); ("status_text", JStr "done")].

Lemma put_handler_missing_id_witness :
  put_handler 5 "apitest" [("status_text", JStr "done")] w_store =
    (Json (JObj [("error", JStr "missing _id")]), w_store).
Proof. apply put_handler_missing_id. reflexivity. Defined.

Lemma put_handler_no_fields_witness :
  put_handler 5 "apitest" [("_id", JStr (oid_to_hex 1)); ("status_text", JStr "")] w_store =
    (Json (JObj [("error", JStr "no update field(s) sent"); ("_id", JStr (oid_to_hex 1))]), w_store).
Proof.
  apply (put_handler_no_fields 5 "apitest" [("_id", JStr (oid_to_hex 1)); ("status_text", JStr "")]).
  - solve_obj_wf.
  - reflexivity.
  - intros k v Hk Hl. simpl in Hl.
    destruct (String.eqb_spec k "_id"); [done|].
    destruct (String.eqb_spec k "status_text"); by simplify_eq.
Defined.

Lemma put_handler_updated_witness :
  exists s', put_handler 5 "apitest" w_body w_store =
    (Json (JObj [("result", JStr "successfully updated"); ("_id", JOid 1)]), s').
Proof.
  destruct (put_handler_updated 5 "apitest" w_body w_store 1 w_issue "status_text" (JStr "done"))
    as (s' & new & Hput & _);
    [apply w_store_wf|apply w_store_keys|solve_obj_wf|reflexivity|reflexivity|done|reflexivity
    |reflexivity|apply body_casts_sound; reflexivity|reflexivity|].
  exists s'. exact Hput.
Defined.

Lemma put_handler_not_found_witness :
  exists s', put_handler 5 "apitest" w_body_missing w_store =
    (Json (JObj [("error", JStr "could not update"); ("_id", JStr (oid_to_hex 7))]), s').
Proof.
  destruct (put_handler_not_found 5 "apitest" w_body_missing w_store 7 "status_text" (JStr "done"))
    as (s' & Hput & _);
    [apply w_store_wf|solve_obj_wf|reflexivity|reflexivity|done|reflexivity|reflexivity
    |apply body_casts_sound; reflexivity|reflexivity|].
  exists s'. exact Hput.
Defined.

Lemma put_handler_malformed_id_witness :
  put_handler 5 "apitest" w_body_bad w_store = (NoReply, w_store).
Proof.
  apply (put_handler_malformed_id 5 "apitest" w_body_bad w_store "status_text" (JStr "done"));
    [apply w_store_wf|solve_obj_wf|reflexivity|reflexivity|done|reflexivity|reflexivity].
Defined.

Lemma delete_handler_missing_id_witness :
  delete_handler "apitest" [] w_store = (Json (JObj [("error", JStr "missing _id")]), w_store).
Proof. apply delete_handler_missing_id. reflexivity. Defined.

Lemma delete_handler_deleted_witness :
  exists s', delete_handler "apitest" [("_id", JStr (oid_to_hex 1))] w_store =
    (Json (JObj [("result", JStr "successfully deleted"); ("_id", JStr (oid_to_hex 1))]), s').
Proof.
  destruct (delete_handler_deleted "apitest" [("_id", JStr (oid_to_hex 1))] w_store 1 w_issue)
    as (s' & Hdel & _); [apply w_store_wf|reflexivity|reflexivity|reflexivity|].
  exists s'. exact Hdel.
Defined.

Lemma delete_handler_not_found_witness :
  exists s', delete_handler "apitest" [("_id", JStr (oid_to_hex 7))] w_store =
    (Json (JObj [("error", JStr "could not delete"); ("_id", JStr (oid_to_hex 7))]), s').
Proof.
  destruct (delete_handler_not_found "apitest" [("_id", JStr (oid_to_hex 7))] w_store 7)
    as (s' & Hdel & _); [apply w_store_wf|reflexivity|reflexivity|reflexivity|].
  exists s'. exact Hdel.
Defined.

Lemma delete_handler_malformed_id_witness :
  delete_handler "apitest" [("_id", JStr "not-an-id")] w_store = (NoReply, w_store).
Proof.
  apply delete_handler_malformed_id; [apply w_store_wf|reflexivity|reflexivity].
Defined.

Lemma post_handler_missing_witness :
  post_handler 5 "apitest" [("issue_title", JStr "t")] w_store =
    (Json (JObj [("error", JStr "required field(s) missing")]), w_store).
Proof. apply post_handler_missing. reflexivity. Defined.

Definition w_post_body : jsobj :=
  [("issue_title", JStr "t"); ("issue_text", JStr "x"); ("created_by", JStr "u")].

Lemma post_handler_created_witness :
  exists s' i, post_handler 5 "apitest" w_post_body w_store =
    (Json (issue_view {| _id := i; project := "apitest"; issue_title := "t"; issue_text := "x";
                         created_by := "u"; assigned_to := ""; status_text := ""; open := true;
                         created_on := 5; updated_on := 5 |}), s').
Proof.
  destruct (post_handler_created 5 "apitest" w_post_body w_store "t" "x" "u" "" "")
    as (s' & i & Hpost & _);
    [apply w_store_wf|done|reflexivity..|].
  exists s', i. exact Hpost.
Defined.

Lemma post_handler_uncastable_witness :
  post_handler 5 "apitest"
    [("issue_title", JArr [JStr "a"; JStr "b"]); ("issue_text", JStr "x"); ("created_by", JStr "u")]
    w_store = (NoReply, w_store).
Proof. apply post_handler_uncastable; [apply w_store_wf|reflexivity..]. Defined.

Lemma get_handler_spec_witness :
  exists l, l ≡ₚ matching_docs (st_docs w_store) [CEq "project" (FString "apitest")] /\
    get_handler "apitest" [] w_store =
      (if Nat.eqb (length l) 0 then Send (JStr "No issues found")
       else Send (JArr (map issue_view l)), w_store).
Proof. exact (get_handler_spec "apitest" [] w_store w_store_wf). Defined.

Lemma get_handler_listed_witness :
  exists l, [issue_view w_issue] = map issue_view l /\
    forall d, In d l ->
      (exists i, st_docs w_store !! i = Some d) /\ IssueModel.project d = "apitest" /\
      forall k x, k <> "project" -> obj_lookup [] k = Some (JStr x) ->
                  schema_path k = Some PString -> doc_get d k = Some (FString x).
Proof.
  apply (get_handler_listed "apitest" [] w_store [issue_view w_issue] w_store);
    [apply w_store_wf|vm_compute; reflexivity].
Defined.
Lemma post_then_get_witness :
  exists s' i vs,
    let d := {| _id := i; project := "apitest"; issue_title := "t"; issue_text := "x";
                created_by := "u"; assigned_to := ""; status_text := ""; open := true;
                created_on := 5; updated_on := 5 |} in
    post_handler 5 "apitest" w_post_body w_store = (Json (issue_view d), s') /\
    get_handler "apitest" [] s' = (Send (JArr vs), s') /\ In (issue_view d) vs.
Proof.
  apply (post_then_get 5 "apitest" w_post_body w_store "t" "x" "u" "" "");
    [apply w_store_wf|done|reflexivity..].
Defined.
Lemma put_handler_uncastable_field_witness :
  put_handler 5 "apitest" [("_id", JStr (oid_to_hex 7)); ("open", JStr "maybe")] w_store =
    (NoReply, w_store).
Proof.
  apply (put_handler_uncastable_field 5 "apitest" _ w_store "open" (JStr "maybe") PBoolean);
    [apply w_store_wf|solve_obj_wf|reflexivity|done|done|done|reflexivity..].
Defined.
End Witnesses.
