(* ===== verification/Trace.v ===== *)
(** * Sequences of requests: the store invariant and what it does not give

    The server handles one request after another against the same
    collection.  This file models a run as a sequence of timed requests
    ([run]) and the stores reachable from a starting store ([reachable],
    a step relation closed under [api]).  It proves the invariant every
    request preserves: each issue is stored under its own [_id] and its
    three required fields are non-empty strings.  It also shows what the
    invariant of the specification's data model does not survive:
    [created_on] is not immutable and [updated_on >= created_on] fails. *)

From S2P Require Import Prelude JsValue IssueModel Store Handlers.

Local Open Scope string_scope.

(** The required strings of an issue are non-empty. *)
Definition required_ok (d : issue) : Prop :=
  issue_title d <> "" /\ issue_text d <> "" /\ created_by d <> "".

(** The store invariant. *)
Definition docs_inv (m : gmap N issue) : Prop :=
  map_Forall (fun i d => _id d = i /\ required_ok d) m.

(** A request's query and body are JavaScript objects: each key once. *)
Definition req_wf (req : request) : Prop := obj_wf (req_query req) /\ obj_wf (req_body req).

Definition required_key (k : string) : bool :=
  String.eqb k "issue_title" || String.eqb k "issue_text" || String.eqb k "created_by".

(** ** The reference operations preserve the invariant *)

Lemma doc_set_required_ok (k : string) (f : fval) (d : issue) :
  (forall s, required_key k = true -> f = FString s -> s <> "") ->
  required_ok d -> required_ok (doc_set k f d).
Proof.
  unfold required_ok, required_key. intros Hf (H1 & H2 & H3).
  destruct f as [s| | |]; unfold doc_set; simpl; try done.
  destruct (String.eqb_spec k "issue_title") as [->|];
    [split; [by apply Hf|done]|].
  destruct (String.eqb_spec k "issue_text") as [->|];
    [split; [done|split; [by apply Hf|done]]|].
  destruct (String.eqb_spec k "created_by") as [->|]; [by split; [|split; [|apply Hf]]|].
  done.
Qed.

Lemma apply_update_required_ok (ops : list (string * fval)) (d : issue) :
  (forall k s, In (k, FString s) ops -> required_key k = true -> s <> "") ->
  required_ok d -> required_ok (apply_update ops d).
Proof.
  intros Hops Hd. unfold apply_update. apply fold_left_invariant; [done|].
  intros d' [k f] Hin Hd'. simpl. apply doc_set_required_ok; [|done].
  intros s Hk ->. by eapply Hops.
Qed.

Lemma issue_valid_required_ok (d : issue) : issue_valid d = true -> required_ok d.
Proof.
  unfold issue_valid, required_ok. intros Hv.
  repeat (apply andb_prop in Hv as [Hv ?]). apply negb_true_iff, String.eqb_neq in Hv.
  repeat match goal with H : negb _ = true |- _ => apply negb_true_iff, String.eqb_neq in H end.
  done.
Qed.

Section RefInv.
Context `{JsEngine}.
Implicit Types (m : gmap N issue).

Lemma ref_save_inv m i now obj d m' :
  docs_inv m -> ref_save m i now obj = Some (d, m') -> docs_inv m'.
Proof.
  unfold ref_save, new_issue. intros Hinv Hs. inv_bind.
  destruct (issue_valid _) eqn:Hv; simplify_eq.
  destruct (m !! _id _); simplify_eq.
  apply map_Forall_insert_2; [|done]. split; [done|]. by apply issue_valid_required_ok.
Qed.

Lemma ref_update_inv m idv upd r m' :
  docs_inv m ->
  (forall k v, In (k, v) upd -> required_key k = true -> truthy v = true) ->
  ref_update m idv upd = Some (r, m') -> docs_inv m'.
Proof.
  unfold ref_update. intros Hinv Hupd Hu. inv_bind.
  destruct (m !! a) as [old|] eqn:Hold; [|by simplify_eq].
  case_decide as Hid; [|done]. injection Hu as <- <-.
  destruct (Hinv a old Hold) as [Hida Hreq].
  apply map_Forall_insert_2; [|done]. split; [congruence|].
  apply apply_update_required_ok; [|done].
  intros k s Hin Hk. destruct (cast_update_In upd a0 k _ Ha0 Hin) as (t & v & Ht & Hv & Hc).
  pose proof (cast_has_type t v _ Hc) as Hty. destruct t; try done.
  simpl in Hc. apply fmap_Some in Hc as (s' & Hs' & [= <-]).
  by eapply cast_string_truthy; [apply (Hupd k v)|].
Qed.

Lemma ref_delete_inv m idv r m' :
  docs_inv m -> ref_delete m idv = Some (r, m') -> docs_inv m'.
Proof.
  unfold ref_delete. intros Hinv Hd. inv_bind.
  destruct (m !! a); simplify_eq; [|done]. by apply map_Forall_delete.
Qed.
End RefInv.

(** ** Every request preserves the invariant *)

Section HandlerInv.
Context `{JsEngine} {S : Type} `{!IssueStore S, !IssueStoreSpec S}.
Implicit Types (s : S).

Definition store_inv (s : S) : Prop := st_wf s /\ docs_inv (st_docs s).

Lemma get_handler_store project q s : snd (get_handler project q s) = s.
Proof. unfold get_handler. by destruct (st_find _ _) as [l|]; [destruct (Nat.eqb _ 0)|]. Qed.

Lemma post_handler_inv now project body s r s' :
  store_inv s -> post_handler now project body s = (r, s') -> store_inv s'.
Proof.
  intros [Hwf Hinv] Hpost. unfold post_handler in Hpost.
  destruct (_ || _ || _); [by simplify_eq|]. fold (post_draft project body) in Hpost.
  pose proof (st_save_spec s now (post_draft project body) Hwf) as Hspec.
  destruct (st_save _ _ _) as [[d s'']|]; simplify_eq; [|done].
  destruct Hspec as (Hwf' & i & _ & Heq). split; [done|]. by eapply ref_save_inv.
Qed.

(** The update object names the required fields only with truthy values. *)
Lemma put_patch_required project now body k v :
  obj_wf body -> In (k, v) (put_patch project now body) -> required_key k = true ->
  truthy v = true.
Proof.
  intros Hwf Hin Hk. apply obj_lookup_wf_In in Hin; [|by apply put_patch_wf].
  rewrite put_patch_lookup in Hin by done. unfold required_key in Hk.
  destruct (String.eqb_spec k "updated_on") as [->|]; [done|].
  destruct (String.eqb_spec k "project") as [->|]; [done|].
  destruct (obj_lookup body k) as [w|]; [|done].
  destruct (truthy w) eqn:Hw; [|done]. by injection Hin as <-.
Qed.

Lemma put_handler_inv now project body s r s' :
  obj_wf body -> store_inv s -> put_handler now project body s = (r, s') -> store_inv s'.
Proof.
  intros Hbwf [Hwf Hinv] Hput. unfold put_handler in Hput.
  destruct (negb _); [by simplify_eq|]. destruct (_ && _); [by simplify_eq|].
  fold (put_patch project now body) in Hput.
  pose proof (st_update_spec s (obj_get (put_patch project now body) "_id")
                (put_patch project now body) Hwf) as Hspec.
  destruct (st_update _ _ _) as [[[u|] s'']|]; simplify_eq; try done;
    destruct Hspec as [Hwf' Heq]; (split; [done|]);
    (eapply ref_update_inv; [done| |exact Heq]); intros k v Hin Hk;
    by eapply put_patch_required.
Qed.

Lemma delete_handler_inv project body s r s' :
  store_inv s -> delete_handler project body s = (r, s') -> store_inv s'.
Proof.
  intros [Hwf Hinv] Hdel. unfold delete_handler in Hdel.
  destruct (negb _); [by simplify_eq|].
  pose proof (st_delete_spec s (obj_get body "_id") Hwf) as Hspec.
  destruct (st_delete _ _) as [[[u|] s'']|]; simplify_eq; try done;
    destruct Hspec as [Hwf' Heq]; (split; [done|]); by eapply ref_delete_inv.
Qed.

Lemma api_inv now req s r s' :
  req_wf req -> store_inv s -> api now req s = (r, s') -> store_inv s'.
Proof.
  intros [Hq Hb] Hs Happ. unfold api in Happ. destruct (req_method req).
  - pose proof (get_handler_store (req_project req) (req_query req) s) as Hg.
    rewrite Happ in Hg. simpl in Hg. by subst.
  - by eapply post_handler_inv.
  - by eapply put_handler_inv.
  - by eapply delete_handler_inv.
Qed.

(** ** Runs and reachable stores *)

(** The stores a server reaches from [s0] by handling well-formed
    requests one after another. *)
Inductive reachable (s0 : S) : S -> Prop :=
| reach_start : reachable s0 s0
| reach_step s now req r s' :
    reachable s0 s -> req_wf req -> api now req s = (r, s') -> reachable s0 s'.

(** A run: the requests in order, each with the time it is handled. *)
Fixpoint run (reqs : list (Z * request)) (s : S) : list reply * S :=
  match reqs with
  | [] => ([], s)
  | (now, req) :: rest =>
      let '(r, s1) := api now req s in
      let '(rs, s2) := run rest s1 in
      (r :: rs, s2)
  end.

Lemma run_reachable s0 reqs s :
  Forall (fun nr => req_wf nr.2) reqs -> reachable s0 s -> reachable s0 (run reqs s).2.
Proof.
  revert s. induction reqs as [|[now req] reqs IH]; intros s Hall Hreach; simpl; [done|].
  inversion Hall as [|? ? Hwf Hrest]; subst.
  destruct (api now req s) as [r s1] eqn:E.
  destruct (run reqs s1) as [rs s2] eqn:E2.
  change s2 with (rs, s2).2. rewrite <- E2. apply IH; [done|]. by eapply reach_step.
Qed.

(** C6: every store reachable from a store satisfying the invariant
    satisfies it: each issue is stored under its own [_id], and
    [issue_title], [issue_text], [created_by] stay non-empty strings
    (creation validates them, and an update only writes truthy values
    to them). *)
Theorem reachable_inv s0 s :
  st_wf s0 -> docs_inv (st_docs s0) -> reachable s0 s -> st_wf s /\ docs_inv (st_docs s).
Proof.
  intros Hwf Hinv Hreach. induction Hreach as [|s now req r s' _ IH Hreq Happ]; [done|].
  by eapply (api_inv now req s r s').
Qed.
End HandlerInv.

(** ** Concrete instances *)

Section Witnesses.
#[local] Existing Instance decimal_engine.
#[local] Existing Instances MemStore.mem_issue_store MemStore.mem_issue_store_spec.

Definition create_req : request :=
  {| req_method := POST; req_project := "apitest"; req_query := [];
     req_body := [("issue_title", JStr "t"); ("issue_text", JStr "x"); ("created_by", JStr "u")] |}.

(** A PUT that also sends [created_on], which the handler passes on. *)
Definition backdate_req : request :=
  {| req_method := PUT; req_project := "apitest"; req_query := [];
     req_body := [("_id", JStr (oid_to_hex 1)); ("created_on", JNum 500)] |}.

Lemma reachable_inv_witness :
  let s := (run [(100%Z, create_req); (200%Z, backdate_req)] MemStore.empty_mem).2 in
  st_wf s /\ docs_inv (st_docs s).
Proof.
  apply (reachable_inv MemStore.empty_mem).
  - exact MemStore.empty_mem_wf.
  - apply map_Forall_empty.
  - apply run_reachable; [|constructor]. repeat constructor; simpl; solve_obj_wf.
Defined.
End Witnesses.
