(* ===== verification/FunctionalTests.v ===== *)
(** * The functional tests of [src/tests/2_functional-tests.js]

    The suite sends fourteen requests to [/api/issues/apitest] in order and
    checks each reply with chai.  Each test is modelled as its request and
    its assertions, a boolean function of the reply: [res.status == 200]
    holds when a reply is sent at all, and [res.body] is the JSON the reply
    serialises to.  [run_suite] runs the fourteen tests in order from a
    given store; the GET tests are proved against any store in
    [Listing.v]. *)

From S2P Require Import Prelude JsValue IssueModel Store Handlers Trace.

Local Open Scope string_scope.

(** ** Replies as the tests observe them *)

(** [res.status == 200]: every reply the handlers send has status 200; a
    request without reply never completes. *)
Definition res_ok (r : reply) : bool := match r with NoReply => false | _ => true end.

(** [res.body]. *)
Definition res_body `{JsEngine} (r : reply) : option json :=
  match r with Send b | Json b => to_json b | NoReply => None end.

(** [o.k] on a JSON object. *)
Definition json_get (j : json) (k : string) : option json :=
  match j with
  | JSObj l => match List.find (fun kv => String.eqb kv.1 k) l with
               | Some (_, v) => Some v | None => None end
  | _ => None
  end.

(** Structural equality of JSON values: [deepEqual] on the values the
    handlers send, whose keys come in one order. *)
Fixpoint json_eqb (a b : json) : bool :=
  match a, b with
  | JSNull, JSNull => true
  | JSBool x, JSBool y => Bool.eqb x y
  | JSNum x, JSNum y => Z.eqb x y
  | JSStr x, JSStr y => String.eqb x y
  | JSArr xs, JSArr ys =>
      (fix elems (xs ys : list json) : bool :=
         match xs, ys with
         | [], [] => true
         | x :: xs', y :: ys' => json_eqb x y && elems xs' ys'
         | _, _ => false
         end) xs ys
  | JSObj xs, JSObj ys =>
      (fix members (xs ys : list (string * json)) : bool :=
         match xs, ys with
         | [], [] => true
         | (k, x) :: xs', (l, y) :: ys' => String.eqb k l && json_eqb x y && members xs' ys'
         | _, _ => false
         end) xs ys
  | _, _ => false
  end.

(** [assert.equal(res.body.k, v)]. *)
Definition body_has `{JsEngine} (r : reply) (k : string) (v : json) : bool :=
  match res_body r with Some b => json_eqb (default JSNull (json_get b k)) v | None => false end.

(** [assert.deepEqual(res.body, v)]. *)
Definition body_is `{JsEngine} (r : reply) (v : json) : bool :=
  match res_body r with Some b => json_eqb b v | None => false end.

(** [assert.isArray(res.body)] and a check of every element. *)
Definition body_all `{JsEngine} (r : reply) (p : json -> bool) : bool :=
  match res_body r with Some (JSArr l) => forallb p l | _ => false end.

(** [assert.property(res.body[0], k)] for each [k]. *)
Definition first_has_props `{JsEngine} (r : reply) (ks : list string) : bool :=
  match res_body r with
  | Some (JSArr (j :: _)) => forallb (fun k => bool_decide (is_Some (json_get j k))) ks
  | _ => false
  end.

Definition req (m : method) (q b : jsobj) : request :=
  {| req_method := m; req_project := "apitest"; req_query := q; req_body := b |}.

(** ** The tests, in the order of the file *)

Section Tests.
Context `{JsEngine}.

Definition test_post_every_field : request * (reply -> bool) :=
  (req POST [] [("issue_title", JStr "Func Test 1"); ("issue_text", JStr "Create issue with every field");
                ("created_by", JStr "user1"); ("assigned_to", JStr "tester1");
                ("status_text", JStr "To be tested")],
   fun r => res_ok r && body_has r "issue_title" (JSStr "Func Test 1")
            && body_has r "created_by" (JSStr "user1")).

Definition test_post_required_only : request * (reply -> bool) :=
  (req POST [] [("issue_title", JStr "Func Test 2");
                ("issue_text", JStr "Create issue with only required fields");
                ("created_by", JStr "user2")],
   fun r => res_ok r && body_has r "issue_title" (JSStr "Func Test 2")
            && body_has r "created_by" (JSStr "user2")
            && body_has r "assigned_to" (JSStr "") && body_has r "status_text" (JSStr "")).

Definition test_post_missing : request * (reply -> bool) :=
  (req POST [] [("issue_title", JStr "Func Test 3");
                ("issue_text", JStr "Create issue with missing required fields")],
   fun r => res_ok r && body_is r (JSObj [("error", JSStr "required field(s) missing")])).

Definition test_get_all : request * (reply -> bool) :=
  (req GET [] [],
   fun r => res_ok r && first_has_props r ["issue_title"; "issue_text"; "created_by"; "created_on";
                                         "updated_on"; "assigned_to"; "status_text"; "open"]).

Definition test_get_one_filter : request * (reply -> bool) :=
  (req GET [("assigned_to", JStr "tester1")] [],
   fun r => res_ok r && body_all r (fun j => json_eqb (default JSNull (json_get j "assigned_to"))
                                                    (JSStr "tester1"))).

(** chai serialises [{open: true}] in the query string as [open=true]. *)
Definition test_get_two_filters : request * (reply -> bool) :=
  (req GET [("assigned_to", JStr "tester1"); ("open", JStr "true")] [],
   fun r => res_ok r && body_all r (fun j =>
              json_eqb (default JSNull (json_get j "assigned_to")) (JSStr "tester1")
              && json_eqb (default JSNull (json_get j "open")) (JSBool true))).

Definition test_put_one_field : request * (reply -> bool) :=
  (req PUT [] [("_id", JStr "63dd624c3e7e112e07a5d032"); ("status_text", JStr "Test complete")],
   fun r => res_ok r && body_is r (JSObj [("result", JSStr "successfully updated");
                                          ("_id", JSStr "63dd624c3e7e112e07a5d032")])).

Definition test_put_many_fields : request * (reply -> bool) :=
  (req PUT [] [("_id", JStr "63dd624c3e7e112e07a5d034");
               ("status_text", JStr "Test complete and will be closed"); ("open", JBool false)],
   fun r => res_ok r && body_is r (JSObj [("result", JSStr "successfully updated");
                                          ("_id", JSStr "63dd624c3e7e112e07a5d034")])).

Definition test_put_missing_id : request * (reply -> bool) :=
  (req PUT [] [("issue_title", JStr "Func Test 9"); ("status_text", JStr "Test complete")],
   fun r => res_ok r && body_is r (JSObj [("error", JSStr "missing _id")])).

Definition test_put_no_fields : request * (reply -> bool) :=
  (req PUT [] [("_id", JStr "63dd624c3e7e112e07a5d034")],
   fun r => res_ok r && body_is r (JSObj [("error", JSStr "no update field(s) sent");
                                          ("_id", JSStr "63dd624c3e7e112e07a5d034")])).

Definition test_put_invalid_id : request * (reply -> bool) :=
  (req PUT [] [("_id", JStr "63dd4614fd4ca8d1372cf3b5"); ("status_text", JStr "Test complete")],
   fun r => res_ok r && body_is r (JSObj [("error", JSStr "could not update");
                                          ("_id", JSStr "63dd4614fd4ca8d1372cf3b5")])).

Definition test_delete : request * (reply -> bool) :=
  (req DELETE [] [("_id", JStr "63dd633b6907e45f9ebccda2")],
   fun r => res_ok r && body_is r (JSObj [("result", JSStr "successfully deleted");
                                          ("_id", JSStr "63dd633b6907e45f9ebccda2")])).

Definition test_delete_invalid_id : request * (reply -> bool) :=
  (req DELETE [] [("_id", JStr "63dd4614fd4ca8d1372cf3b5")],
   fun r => res_ok r && body_is r (JSObj [("error", JSStr "could not delete");
                                          ("_id", JSStr "63dd4614fd4ca8d1372cf3b5")])).

Definition test_delete_missing_id : request * (reply -> bool) :=
  (req DELETE [] [],
   fun r => res_ok r && body_is r (JSObj [("error", JSStr "missing _id")])).

Definition suite : list (request * (reply -> bool)) :=
  [test_post_every_field; test_post_required_only; test_post_missing;
   test_get_all; test_get_one_filter; test_get_two_filters;
   test_put_one_field; test_put_many_fields; test_put_missing_id; test_put_no_fields;
   test_put_invalid_id; test_delete; test_delete_invalid_id; test_delete_missing_id].

(** The suite run from store [s], the [n]-th request handled at time
    [start + n]; the result of each assertion and the final store. *)
Definition run_suite {S : Type} {store : IssueStore S} (start : Z) (s : S) : list bool * S :=
  let '(rs, s') := run (imap (fun n t => (start + Z.of_nat n, t.1)%Z) suite) s in
  (zip_with (fun t r => t.2 r) suite rs, s').
End Tests.

