(* ===== verification/Connection.v ===== *)
(** * The database connection of [src/routes/api.js] (lines 3-13)

    The module reads [MONGO_URI] from the environment, starts
    [mongoose.connect] and registers the route whether or not the
    connection succeeds: a rejected connection is only logged (line 11).
    A server is the route together with the state of that connection and
    the database behind it.  Through a live connection every call reaches
    the database; through a failed one Mongoose buffers the call and fails
    it after its buffering timeout, and the handler receives the error in
    its callback.  This file models that wrapper as a store ([conn_store])
    and proves what the route does in either state. *)

From S2P Require Import Prelude JsValue IssueModel Store Handlers.

Local Open Scope string_scope.

(** [const mySecret = process.env['MONGO_URI']] (line 5). *)
Definition mySecret (env : gmap string string) : option string := env !! "MONGO_URI".

Inductive conn := Connected | Disconnected.

#[export] Instance conn_eq_dec : EqDecision conn.
Proof. solve_decision. Defined.

(** [mongoose.connect(mySecret, ...).catch(err => console.log(err))]
    (lines 10-11): the promise rejects when the URI is [undefined] or names
    a server that cannot be reached ([reachable_uri], the network's
    answer); the rejection is logged and nothing else happens. *)
Definition connect (reachable_uri : string -> bool) (uri : option string) : conn :=
  match uri with
  | Some u => if reachable_uri u then Connected else Disconnected
  | None => Disconnected
  end.

(** The route's server: the connection and the database behind it. *)
Record server (S : Type) := { srv_conn : conn; srv_db : S }.
Arguments srv_conn {S} _.
Arguments srv_db {S} _.

(** [module.exports = function(app) {...}] (lines 7-13): connect with the
    environment's URI, then serve the route over the connection. *)
Definition mount {S : Type} (env : gmap string string) (reachable_uri : string -> bool) (db : S)
    : server S :=
  {| srv_conn := connect reachable_uri (mySecret env); srv_db := db |}.

Section ConnStore.
Context `{JsEngine} {S : Type} `{!IssueStore S}.

(** A call through the connection: the database's answer when it is up,
    the buffering-timeout error when it is down. *)
Definition through {R} (c : conn) (r : option (R * S)) : option (R * server S) :=
  match c with
  | Connected => (fun '(x, db) => (x, {| srv_conn := Connected; srv_db := db |})) <$> r
  | Disconnected => None
  end.

#[export] Instance conn_store : IssueStore (server S) := {|
  st_docs a := st_docs (srv_db a);
  st_find a q := match srv_conn a with Connected => st_find (srv_db a) q | Disconnected => None end;
  st_save a now obj := through (srv_conn a) (st_save (srv_db a) now obj);
  st_update a idv upd := through (srv_conn a) (st_update (srv_db a) idv upd);
  st_delete a idv := through (srv_conn a) (st_delete (srv_db a) idv)
|}.
End ConnStore.

(** ** A live connection keeps the store's promises *)

Section ConnSpec.
Context `{JsEngine} {S : Type} `{!IssueStore S, !IssueStoreSpec S}.

Definition conn_wf (a : server S) : Prop := srv_conn a = Connected /\ st_wf (srv_db a).

Lemma through_connected {R} (r : option (R * S)) :
  through Connected r = (fun '(x, db) => (x, {| srv_conn := Connected; srv_db := db |})) <$> r.
Proof. done. Qed.

Ltac conn_case spec :=
  intros [c db] [Hc Hwf]; simpl in *; subst c; rewrite ?through_connected;
  pose proof (spec db Hwf) as Hs; unfold conn_wf; simpl;
  repeat case_match; simplify_eq/=; naive_solver.

Lemma conn_find_spec a q : conn_wf a ->
  match st_find a q, ref_find (st_docs a) q with
  | None, None => True
  | Some l1, Some l2 => l1 ≡ₚ l2
  | _, _ => False
  end.
Proof. revert a. conn_case (fun db => st_find_spec db q). Qed.

Lemma conn_save_spec a now obj : conn_wf a ->
  match st_save a now obj with
  | None => exists i, st_docs a !! i = None /\ ref_save (st_docs a) i now obj = None
  | Some (d, a') => conn_wf a' /\
      exists i, st_docs a !! i = None /\ ref_save (st_docs a) i now obj = Some (d, st_docs a')
  end.
Proof. revert a. conn_case (fun db => st_save_spec db now obj). Qed.

Lemma conn_update_spec a idv upd : conn_wf a ->
  match st_update a idv upd with
  | None => ref_update (st_docs a) idv upd = None
  | Some (r, a') => conn_wf a' /\ ref_update (st_docs a) idv upd = Some (r, st_docs a')
  end.
Proof. revert a. conn_case (fun db => st_update_spec db idv upd). Qed.

Lemma conn_delete_spec a idv : conn_wf a ->
  match st_delete a idv with
  | None => ref_delete (st_docs a) idv = None
  | Some (r, a') => conn_wf a' /\ ref_delete (st_docs a) idv = Some (r, st_docs a')
  end.
Proof. revert a. conn_case (fun db => st_delete_spec db idv). Qed.

#[export] Instance conn_store_spec : IssueStoreSpec (server S) := {|
  st_wf := conn_wf;
  st_find_spec := conn_find_spec;
  st_save_spec := conn_save_spec;
  st_update_spec := conn_update_spec;
  st_delete_spec := conn_delete_spec
|}.
End ConnSpec.

(** ** The route over a live and over a failed connection *)

(** The replies the handlers send before calling the store. *)
Definition validation_reply (r : reply) : Prop :=
  exists msg extra, r = Json (JObj (("error", JStr msg) :: extra)) /\
    msg ∈ ["required field(s) missing"; "missing _id"; "no update field(s) sent"].

Section Serve.
Context `{JsEngine} {S : Type} `{!IssueStore S}.
Implicit Types (db : S).

Lemma api_disconnected now req db :
  let a := {| srv_conn := Disconnected; srv_db := db |} in
  (api now req a).2 = a /\
  ((api now req a).1 = NoReply \/ validation_reply (api now req a).1) /\
  (req_method req = GET -> (api now req a).1 = NoReply).
Proof.
  destruct req as [[] p q b]; unfold api, get_handler, post_handler, put_handler, delete_handler,
    validation_reply; simpl; repeat case_match; simpl; split_and!; try done;
    first [by left | right; eexists _, _; split; [reflexivity|set_solver]].
Qed.

End Serve.

Section ServeProps.
Context `{JsEngine} {S : Type} `{!IssueStore S, !IssueStoreSpec S}.
Implicit Types (db : S).

(** C19: when [MONGO_URI] is unset or names an unreachable database, the
    route is still served but no request changes the database: a GET is
    never answered, and every other request is answered only by one of
    the validation errors raised before the store is called (the store's
    buffering timeout is logged and the request left pending). *)
Theorem mount_failed_drops env reachable_uri db now req :
  (forall u, mySecret env = Some u -> reachable_uri u = false) ->
  let a := mount env reachable_uri db in
  (api now req a).2 = a /\
  ((api now req a).1 = NoReply \/ validation_reply (api now req a).1) /\
  (req_method req = GET -> (api now req a).1 = NoReply).
Proof.
  intros Hu. assert (Hc : srv_conn (mount env reachable_uri db) = Disconnected).
  { unfold mount, connect. destruct (mySecret env) as [u|] eqn:E; [by rewrite (Hu u)|done]. }
  destruct (mount env reachable_uri db) as [c db'] eqn:Em. simpl in Hc. subst c.
  apply api_disconnected.
Qed.
End ServeProps.

(** ** Witnesses *)

Section Witnesses.
#[local] Existing Instance decimal_engine.
#[local] Existing Instances MemStore.mem_issue_store MemStore.mem_issue_store_spec.

Definition w_post : request :=
  {| req_method := POST; req_project := "apitest"; req_query := [];
     req_body := [("issue_title", JStr "t"); ("issue_text", JStr "x"); ("created_by", JStr "u")] |}.

Lemma mount_failed_drops_witness :
  (forall u, mySecret ∅ = Some u -> (fun _ : string => true) u = false) /\
  let a := mount ∅ (fun _ => true) MemStore.empty_mem in
  (api 5 w_post a).2 = a /\
  ((api 5 w_post a).1 = NoReply \/ validation_reply (api 5 w_post a).1) /\
  (req_method w_post = GET -> (api 5 w_post a).1 = NoReply).
Proof.
  assert (Hu : forall u, mySecret ∅ = Some u -> (fun _ : string => true) u = false)
    by (intros u Hu; vm_compute in Hu; discriminate).
  split; [exact Hu|]. exact (mount_failed_drops ∅ (fun _ => true) MemStore.empty_mem 5 w_post Hu).
Defined.
End Witnesses.
