(* ===== verification/Listing.v ===== *)
(** * GET listings, up to the order the store returns them in

    [Issue.find] gives no order (the spec: "store-native order, not
    guaranteed stable"), so the GET reply is determined by the store's
    documents only up to a permutation of the listed issues.  This file
    makes that precise: replies are compared by [≡], under which a
    listing equals any reordering of itself; the listing built by the
    handler's callback (lines 23-40) is a morphism from [≡ₚ] to [≡]; a
    listing is bounded by the store's size; and the assertions of the GET
    tests respect [≡], so whether they pass depends only on which issues
    are stored. *)

From S2P Require Import Prelude JsValue IssueModel Store Handlers FunctionalTests.

Local Open Scope string_scope.

(** The [else] branch of the [find] callback (lines 23-40): the string
    marker for an empty result, the views of the issues otherwise. *)
Definition listing (issues : list issue) : reply :=
  if Nat.eqb (length issues) 0 then Send (JStr "No issues found")
  else Send (JArr (map issue_view issues)).

(** Equal replies, or two listings of the same issues in two orders. *)
Inductive reply_equiv : reply -> reply -> Prop :=
| reply_equiv_refl r : reply_equiv r r
| reply_equiv_perm vs1 vs2 : vs1 ≡ₚ vs2 -> reply_equiv (Send (JArr vs1)) (Send (JArr vs2)).

#[export] Instance reply_equiv_equiv : Equiv reply := reply_equiv.

#[export] Instance reply_equiv_Equivalence : Equivalence (≡@{reply}).
Proof.
  split.
  - intros r. constructor.
  - intros r1 r2 []; constructor. by symmetry.
  - intros r1 r2 r3 [] H23; [done|]. inversion H23; subst; constructor; [done|by etrans].
Qed.

Section ListingMorphisms.
Context `{JsEngine}.

#[export] Instance listing_proper : Proper ((≡ₚ) ==> (≡)) listing.
Proof.
  intros l1 l2 Hp. unfold listing. rewrite (Permutation_length Hp).
  destruct (Nat.eqb _ 0); [constructor|]. constructor. by apply Permutation_map.
Qed.

#[export] Instance res_ok_proper : Proper ((≡) ==> (=)) res_ok.
Proof. intros r1 r2 []; done. Qed.

#[export] Instance body_all_proper : Proper ((≡) ==> (=) ==> (=)) body_all.
Proof.
  intros r1 r2 [|vs1 vs2 Hp] p ? <-; [done|]. unfold body_all, res_body. rewrite !to_json_arr.
  apply forallb_Permutation, Permutation_map, Hp.
Qed.
End ListingMorphisms.

Lemma get_handler_listing `{JsEngine} {S : Type} `{!IssueStore S} project q (s : S) :
  get_handler project q s =
    match st_find s (obj_set "project" (JStr project) q) with
    | None => (NoReply, s)
    | Some issues => (listing issues, s)
    end.
Proof. unfold get_handler, listing. by destruct (st_find _ _) as [l|]; [destruct (Nat.eqb _ 0)|]. Qed.

(** ** Bounds on a listing *)

Section GetBounds.
Context `{JsEngine} {S : Type} `{!IssueStore S, !IssueStoreSpec S}.
Implicit Types (q : jsobj) (s : S).

Lemma matching_docs_length m cs : length (matching_docs m cs) <= size m.
Proof. unfold matching_docs. rewrite <- length_map_to_list, <- (length_map snd). apply filter_length_le. Qed.

(** C20: a GET listing is never empty (no match gives the string marker)
    and never longer than the number of documents in the store. *)
Theorem get_listing_bounds project q s vs :
  st_wf s -> (get_handler project q s).1 = Send (JArr vs) ->
  1 <= length vs <= size (st_docs s).
Proof.
  intros Hwf Hget. pose proof (get_handler_cases project q s Hwf) as Hspec.
  destruct (cast_filter _) as [cs|]; [|by rewrite Hspec in Hget].
  destruct Hspec as (l & Hp & Heq). rewrite Heq in Hget. simpl in Hget.
  destruct (Nat.eqb (length l) 0) eqn:E; [discriminate|]. injection Hget as <-.
  rewrite length_map, (Permutation_length Hp). apply Nat.eqb_neq in E.
  pose proof (matching_docs_length (st_docs s) cs). rewrite (Permutation_length Hp) in E. lia.
Qed.
End GetBounds.

(** ** The GET tests against any store *)

Section GetTests.
Context `{JsEngine} {S : Type} `{!IssueStore S, !IssueStoreSpec S}.
Implicit Types (s : S) (l : list issue).

(** An issue as the client receives it. *)
Definition view_json (d : issue) : json := default JSNull (to_json (issue_view d)).

Lemma res_ok_listing l : res_ok (listing l) = true.
Proof. unfold listing. by destruct (Nat.eqb _ 0). Qed.

Lemma body_all_listing l p :
  body_all (listing l) p = negb (Nat.eqb (length l) 0) && forallb (fun d => p (view_json d)) l.
Proof.
  unfold listing. destruct (Nat.eqb _ 0); [done|].
  unfold body_all, res_body. rewrite to_json_arr; simpl. by rewrite !forallb_map.
Qed.

Lemma first_has_props_listing l :
  first_has_props (listing l) ["issue_title"; "issue_text"; "created_by"; "created_on";
                               "updated_on"; "assigned_to"; "status_text"; "open"] =
  negb (Nat.eqb (length l) 0).
Proof. destruct l; reflexivity. Qed.

(** A listing whose every element satisfies the test's predicate passes
    the test exactly when it is not empty. *)
Lemma listing_test_iff l p :
  (forall d, In d l -> p (view_json d) = true) ->
  res_ok (listing l) && body_all (listing l) p = true <-> exists d, In d l.
Proof.
  intros Hp. rewrite res_ok_listing, body_all_listing, andb_true_l, andb_true_iff, negb_true_iff,
    Nat.eqb_neq, forallb_forall.
  destruct l as [|d l]; simpl; [naive_solver|]. split; [eauto|]. intros _. split; [lia|auto].
Qed.

Lemma get_filter_test q cs s p :
  st_wf s -> cast_filter (obj_set "project" (JStr "apitest") q) = Some cs ->
  (forall d, matches cs d = true -> p (view_json d) = true) ->
  res_ok (get_handler "apitest" q s).1 && body_all (get_handler "apitest" q s).1 p = true <->
  exists i d, st_docs s !! i = Some d /\ matches cs d = true.
Proof.
  intros Hwf Hcs Hp. rewrite get_handler_listing.
  pose proof (st_find_spec s (obj_set "project" (JStr "apitest") q) Hwf) as Hspec.
  unfold ref_find in Hspec. rewrite Hcs in Hspec. simpl in Hspec.
  destruct (st_find _ _) as [l|]; [|done]. simpl. rewrite Hspec.
  fold (matching_docs (st_docs s) cs). rewrite listing_test_iff.
  - setoid_rewrite matching_docs_In. naive_solver.
  - intros d Hd. apply matching_docs_In in Hd. naive_solver.
Qed.
Lemma Some_FString_iff (a b : string) : Some (FString a) = Some (FString b) <-> a = b.
Proof. split; [congruence|by intros ->]. Qed.

Lemma Some_FBoolean_iff (a b : bool) : Some (FBoolean a) = Some (FBoolean b) <-> a = b.
Proof. split; [congruence|by intros ->]. Qed.

Lemma matching_docs_exists m cs :
  (exists d, In d (matching_docs m cs)) <-> exists i d, m !! i = Some d /\ matches cs d = true.
Proof. setoid_rewrite matching_docs_In. naive_solver. Qed.

Lemma get_all_test s :
  st_wf s ->
  res_ok (get_handler "apitest" [] s).1 &&
  first_has_props (get_handler "apitest" [] s).1
    ["issue_title"; "issue_text"; "created_by"; "created_on";
     "updated_on"; "assigned_to"; "status_text"; "open"] = true <->
  exists i d, st_docs s !! i = Some d /\ matches [CEq "project" (FString "apitest")] d = true.
Proof.
  intros Hwf. rewrite get_handler_listing.
  pose proof (st_find_spec s (obj_set "project" (JStr "apitest") []) Hwf) as Hspec.
  unfold ref_find in Hspec. simpl in Hspec.
  destruct (st_find _ _) as [l|]; [|done]. cbn [fst].
  rewrite res_ok_listing, first_has_props_listing, (Permutation_length Hspec).
  fold (matching_docs (st_docs s) [CEq "project" (FString "apitest")]).
  rewrite <- matching_docs_exists, andb_true_l, negb_true_iff, Nat.eqb_neq.
  destruct (matching_docs _ _) as [|d l']; simpl; [naive_solver|]. split; [eauto|lia].
Qed.

(** Turns a store condition on the matching documents into a statement
    on their fields. *)
Ltac matches_fields :=
  unfold matches; simpl; unfold doc_get; simpl;
  repeat (setoid_rewrite andb_true_r || setoid_rewrite andb_true_iff ||
          setoid_rewrite bool_decide_eq_true || setoid_rewrite Some_FString_iff ||
          setoid_rewrite Some_FBoolean_iff).

Ltac get_filter_case lem cs :=
  rewrite (lem _ cs);
  [matches_fields; naive_solver
  |done
  |reflexivity
  |intros d Hm; revert Hm; matches_fields; intros; destruct_and?; unfold view_json; simpl;
   rewrite ?andb_true_iff, ?String.eqb_eq, ?Bool.eqb_true_iff; naive_solver].

(** C21: whatever the store, the test "View issues on a project" passes
    exactly when the store holds an issue of project [apitest], and the
    tests "View issues on a project with one filter" and "... with
    multiple filters" pass exactly when it holds one assigned to
    [tester1] (and, for the second, open): a GET without match replies
    with the string marker, which fails [assert.isArray] and
    [assert.property]. *)
Theorem get_tests_on_any_store now s :
  st_wf s ->
  (test_get_all.2 (api now test_get_all.1 s).1 = true <->
     exists i d, st_docs s !! i = Some d /\ project d = "apitest") /\
  (test_get_one_filter.2 (api now test_get_one_filter.1 s).1 = true <->
     exists i d, st_docs s !! i = Some d /\ project d = "apitest" /\ assigned_to d = "tester1") /\
  (test_get_two_filters.2 (api now test_get_two_filters.1 s).1 = true <->
     exists i d, st_docs s !! i = Some d /\ project d = "apitest" /\
                 assigned_to d = "tester1" /\ open d = true).
Proof.
  intros Hwf. split_and!.
  - cbn [fst snd test_get_all api req req_method req_project req_query].
    rewrite get_all_test by done. matches_fields. naive_solver.
  - cbn [fst snd test_get_one_filter api req req_method req_project req_query].
    get_filter_case get_filter_test [CEq "assigned_to" (FString "tester1"); CEq "project" (FString "apitest")].
  - cbn [fst snd test_get_two_filters api req req_method req_project req_query].
    get_filter_case get_filter_test [CEq "assigned_to" (FString "tester1"); CEq "open" (FBoolean true);
                     CEq "project" (FString "apitest")].
Qed.
End GetTests.

(** ** Witnesses *)

Section Witnesses.
#[local] Existing Instance decimal_engine.
#[local] Existing Instances MemStore.mem_issue_store MemStore.mem_issue_store_spec.

Lemma get_listing_bounds_witness : 1 <= length [issue_view w_issue] <= size (st_docs w_store).
Proof.
  apply (get_listing_bounds "apitest" [] w_store); [apply w_store_wf|vm_compute; reflexivity].
Defined.

Lemma get_tests_on_any_store_witness :
  (test_get_all.2 (api 5 test_get_all.1 w_store).1 = true <->
     exists i d, st_docs w_store !! i = Some d /\ project d = "apitest") /\
  (test_get_one_filter.2 (api 5 test_get_one_filter.1 w_store).1 = true <->
     exists i d, st_docs w_store !! i = Some d /\ project d = "apitest" /\ assigned_to d = "tester1") /\
  (test_get_two_filters.2 (api 5 test_get_two_filters.1 w_store).1 = true <->
     exists i d, st_docs w_store !! i = Some d /\ project d = "apitest" /\
                 assigned_to d = "tester1" /\ open d = true).
Proof. exact (get_tests_on_any_store 5 w_store w_store_wf). Defined.
End Witnesses.
