(* ===== verification/Replies.v ===== *)
(** * Which requests are answered, and the shape of the answers

    A handler leaves a request unanswered only on the
    [if (err) return console.log(err)] paths of its store callback.  This
    file shows that on a store satisfying the invariant of [Trace.v] the
    only error the store raises is a cast error: a request whose values
    cast to their schema types is always answered ([api_answers]).  It
    also shows that every reply the route sends serialises to JSON of the
    form the specification's interface table gives for its method
    ([api_reply_shape]). *)

From S2P Require Import Prelude JsValue IssueModel Store Handlers Trace.

Local Open Scope string_scope.

(** ** Requests whose values cast *)

Section Casts.
Context `{JsEngine}.

(** Every truthy value of a body that is a schema path casts to the
    path's type (falsy values are dropped or defaulted by the handlers
    before they reach Mongoose). *)
Definition values_cast (o : jsobj) : bool :=
  forallb (fun kv => negb (truthy kv.2) ||
                     match schema_path kv.1 with
                     | Some t => bool_decide (is_Some (cast t kv.2))
                     | None => true
                     end) o.

(** Every value of a query casts to a filter condition. *)
Definition query_casts (q : jsobj) : bool :=
  forallb (fun kv => bool_decide (is_Some (cast_cond kv.1 kv.2))) q.

Definition id_casts (b : jsobj) : bool :=
  negb (truthy (obj_get b "_id")) || bool_decide (is_Some (cast_objectid (obj_get b "_id"))).

(** The values a request carries cast where the handler passes them to
    the store. *)
Definition request_casts (req : request) : bool :=
  match req_method req with
  | GET => query_casts (req_query req)
  | POST | PUT => values_cast (req_body req)
  | DELETE => id_casts (req_body req)
  end.

Lemma values_cast_In o k v t :
  values_cast o = true -> In (k, v) o -> truthy v = true -> schema_path k = Some t ->
  is_Some (cast t v).
Proof.
  intros Hc Hin Hv Ht. unfold values_cast in Hc. rewrite forallb_forall in Hc.
  specialize (Hc _ Hin). simpl in Hc. rewrite Hv, Ht in Hc. simpl in Hc.
  by apply bool_decide_eq_true in Hc.
Qed.

Lemma values_cast_lookup o k v t :
  values_cast o = true -> obj_lookup o k = Some v -> truthy v = true -> schema_path k = Some t ->
  is_Some (cast t v).
Proof. intros Hc Hl. apply (values_cast_In o); [done|by apply obj_lookup_In]. Qed.

(** A truthy field the body gives casts to a string. *)
Lemma values_cast_string o k :
  values_cast o = true -> schema_path k = Some PString -> truthy (obj_get o k) = true ->
  is_Some (cast_string (obj_get o k)).
Proof.
  intros Hc Ht Hv. unfold obj_get in *. destruct (obj_lookup o k) as [v|] eqn:Hl; [|done].
  destruct (values_cast_lookup o k v PString Hc Hl Hv Ht) as [f Hf].
  simpl in Hf. apply fmap_Some in Hf as (x & Hx & _). by exists x.
Qed.

Lemma values_cast_id o :
  values_cast o = true -> truthy (obj_get o "_id") = true -> is_Some (cast_objectid (obj_get o "_id")).
Proof.
  intros Hc Hv. unfold obj_get in *. destruct (obj_lookup o "_id") as [v|] eqn:Hl; [|done].
  destruct (values_cast_lookup o "_id" v PObjectId Hc Hl Hv eq_refl) as [f Hf].
  simpl in Hf. apply fmap_Some in Hf as (x & Hx & _). by exists x.
Qed.

Lemma cast_filter_total q :
  (forall k v, In (k, v) q -> is_Some (cast_cond k v)) -> is_Some (cast_filter q).
Proof.
  induction q as [|[k v] q IH]; intros Hall; simpl; [by eexists|].
  destruct (Hall k v (or_introl eq_refl)) as [c ->].
  destruct (IH (fun k' v' Hin => Hall k' v' (or_intror Hin))) as [cs ->]. by eexists.
Qed.

Lemma query_casts_filter project q :
  obj_wf q -> query_casts q = true -> is_Some (cast_filter (obj_set "project" (JStr project) q)).
Proof.
  intros Hwf Hq. apply cast_filter_total. intros k v Hin.
  apply obj_set_In in Hin as [[= -> ->]|[_ Hin]]; [by eexists| |done].
  unfold query_casts in Hq. rewrite forallb_forall in Hq.
  exact (bool_decide_eq_true_1 _ (Hq _ Hin)).
Qed.
End Casts.

(** ** Every request whose values cast is answered *)

Section Answers.
Context `{JsEngine} {S : Type} `{!IssueStore S, !IssueStoreSpec S}.
Implicit Types (s : S) (b : jsobj).

Lemma docs_inv_keys m : docs_inv m -> keys_ok m.
Proof. intros Hm. eapply map_Forall_impl; [exact Hm|]. naive_solver. Qed.

(** On a store whose documents sit under their own ids, the update the
    PUT handler asks for raises no error when the body's values cast. *)
Lemma put_ref_update_total m project now b :
  keys_ok m -> obj_wf b -> truthy (obj_get b "_id") = true -> values_cast b = true ->
  is_Some (ref_update m (obj_get b "_id") (put_patch project now b)).
Proof.
  intros Hkeys Hwf Hid Hc. destruct (values_cast_id b Hc Hid) as [i Hi].
  destruct (put_patch_casts project now b Hwf (fun k v t => values_cast_lookup b k v t Hc)) as [ops Hops].
  unfold ref_update. rewrite Hi, Hops. simpl.
  destruct (m !! i) as [old|] eqn:E; [|by eexists].
  rewrite decide_True; [by eexists|].
  by rewrite (apply_put_patch_id project now b ops old i), (Hkeys i old E).
Qed.

Lemma get_answers project q s :
  st_wf s -> obj_wf q -> query_casts q = true -> (get_handler project q s).1 <> NoReply.
Proof.
  intros Hwf Hq Hc. pose proof (get_handler_cases project q s Hwf) as Hspec.
  destruct (query_casts_filter project q Hq Hc) as [cs Hcs]. rewrite Hcs in Hspec.
  destruct Hspec as (l & _ & ->). simpl. by destruct (Nat.eqb _ 0).
Qed.

Lemma post_answers now project b s :
  st_wf s -> project <> "" -> values_cast b = true -> (post_handler now project b s).1 <> NoReply.
Proof.
  intros Hwf Hp Hc.
  destruct (truthy (obj_get b "issue_title")) eqn:Ht; [|unfold post_handler; by rewrite Ht].
  destruct (truthy (obj_get b "issue_text")) eqn:Hx; [|unfold post_handler; by rewrite Ht, Hx].
  destruct (truthy (obj_get b "created_by")) eqn:Hb; [|unfold post_handler; by rewrite Ht, Hx, Hb].
  destruct (values_cast_string b "issue_title" Hc eq_refl Ht) as [t' Ht'].
  destruct (values_cast_string b "issue_text" Hc eq_refl Hx) as [x' Hx'].
  destruct (values_cast_string b "created_by" Hc eq_refl Hb) as [c' Hc'].
  assert (Hopt : forall k, schema_path k = Some PString ->
                 is_Some (cast_string (js_or (obj_get b k) (JStr "")))).
  { intros k Hk. unfold js_or. destruct (truthy (obj_get b k)) eqn:E; [|by eexists].
    by apply values_cast_string. }
  destruct (Hopt "assigned_to" eq_refl) as [a' Ha'], (Hopt "status_text" eq_refl) as [st' Hs'].
  destruct (post_handler_save_ok now project b s t' x' c' a' st') as (s' & i & -> & _); done.
Qed.

Lemma put_answers now project b s :
  store_inv s -> obj_wf b -> values_cast b = true -> (put_handler now project b s).1 <> NoReply.
Proof.
  intros [Hwf Hinv] Hbwf Hc. unfold put_handler.
  destruct (truthy (obj_get b "_id")) eqn:Hid; [|done]. simpl.
  destruct (_ && _); [done|]. fold (put_patch project now b).
  rewrite put_patch_id, Hid by done.
  pose proof (st_update_spec s (obj_get b "_id") (put_patch project now b) Hwf) as Hspec.
  destruct (put_ref_update_total (st_docs s) project now b (docs_inv_keys _ Hinv) Hbwf Hid Hc)
    as [r Hr].
  destruct (st_update _ _ _) as [[[u|] s']|]; [done|done|congruence].
Qed.

Lemma delete_answers project b s :
  st_wf s -> id_casts b = true -> (delete_handler project b s).1 <> NoReply.
Proof.
  intros Hwf Hc. unfold delete_handler, id_casts in *.
  destruct (truthy (obj_get b "_id")); [|done]. simpl in *.
  apply bool_decide_eq_true in Hc as [i Hi].
  pose proof (st_delete_spec s (obj_get b "_id") Hwf) as Hspec.
  destruct (st_delete _ _) as [[[u|] s']|]; [done|done|].
  unfold ref_delete in Hspec. rewrite Hi in Hspec. simpl in Hspec. by destruct (st_docs s !! i).
Qed.

(** C22: on a store satisfying the invariant, every well-formed request
    to a non-empty project whose values cast to their schema types is
    answered: the handlers drop a request only on a cast error (a
    malformed id, an array or object where a scalar is expected, a
    string that is not a boolean or a date); no other store error
    (validation, duplicate key, immutable [_id]) can occur. *)
Theorem api_answers now req s :
  store_inv s -> req_wf req -> req_project req <> "" -> request_casts req = true ->
  (api now req s).1 <> NoReply.
Proof.
  intros Hs [Hq Hb] Hp Hc. pose proof (proj1 Hs) as Hwf. unfold api, request_casts in *.
  destruct (req_method req);
    [apply get_answers|apply post_answers|apply put_answers|apply delete_answers]; done.
Qed.
End Answers.

(** ** The shape of every reply *)

(** What goes on the wire: Express's [res.send] sends a string as text
    and an array or object as JSON; [res.json] sends JSON. *)
Inductive wire := WText (s : string) | WJson (j : json).

Definition on_wire `{JsEngine} (r : reply) : option wire :=
  match r with
  | Send (JStr s) => Some (WText s)
  | Send b | Json b => WJson <$> to_json b
  | NoReply => None
  end.

(** An issue as the client receives it: the nine members in the order
    the handlers write them, the id as 24 hexadecimal digits, the dates
    as strings, [open] as a boolean and the other fields as strings. *)
Definition issue_json_ok (j : json) : bool :=
  match j with
  | JSObj [(k1, JSStr id); (k2, JSStr _); (k3, JSStr _); (k4, JSStr _); (k5, JSStr _);
           (k6, JSStr _); (k7, JSStr _); (k8, JSBool _); (k9, JSStr _)] =>
      bool_decide ([k1; k2; k3; k4; k5; k6; k7; k8; k9] =
                   ["_id"; "issue_title"; "issue_text"; "created_on"; "updated_on";
                    "created_by"; "assigned_to"; "open"; "status_text"]) &&
      Nat.eqb (String.length id) 24
  | _ => false
  end.

(** [{tag: msg}] or [{tag: msg, _id}], with [msg] one of [msgs]. *)
Definition message_ok (tag : string) (msgs : list string) (with_id : bool) (j : json) : bool :=
  match j with
  | JSObj ((k, JSStr m) :: rest) =>
      String.eqb k tag && existsb (String.eqb m) msgs &&
      match rest, with_id with
      | [], false => true
      | [(k', _)], true => String.eqb k' "_id"
      | _, _ => false
      end
  | _ => false
  end.

(** The interface table of the specification (section 6), per method. *)
Definition reply_shape (m : method) (w : wire) : bool :=
  match m, w with
  | GET, WText s => String.eqb s "No issues found"
  | GET, WJson (JSArr l) => negb (Nat.eqb (length l) 0) && forallb issue_json_ok l
  | POST, WJson j => issue_json_ok j || message_ok "error" ["required field(s) missing"] false j
  | PUT, WJson j =>
      message_ok "result" ["successfully updated"] true j ||
      message_ok "error" ["missing _id"] false j ||
      message_ok "error" ["no update field(s) sent"; "could not update"] true j
  | DELETE, WJson j =>
      message_ok "result" ["successfully deleted"] true j ||
      message_ok "error" ["missing _id"] false j ||
      message_ok "error" ["could not delete"] true j
  | _, _ => false
  end.

Section Shapes.
Context `{JsEngine} {S : Type} `{!IssueStore S}.
Implicit Types (s : S) (b : jsobj).

Lemma to_json_truthy v : truthy v = true -> exists j, to_json v = Some j.
Proof. destruct v; simpl; try done; by eexists. Qed.

Lemma issue_view_ok d : exists j, to_json (issue_view d) = Some j /\ issue_json_ok j = true.
Proof. eexists. split; [reflexivity|]. cbn -[oid_to_hex]. by rewrite oid_to_hex_length. Qed.

(** An echo of a truthy id serialises to a message with an [_id]. *)
Lemma echo_ok tag msg msgs v :
  truthy v = true -> msg ∈ msgs ->
  exists j, to_json (JObj [(tag, JStr msg); ("_id", v)]) = Some j /\ message_ok tag msgs true j = true.
Proof.
  intros Hv Hm. destruct (to_json_truthy v Hv) as [j Hj]. eexists. split.
  - simpl. by rewrite Hj.
  - simpl. rewrite !String.eqb_refl, andb_true_r. simpl.
    apply existsb_exists. exists msg. split; [by apply list_elem_of_In|apply String.eqb_refl].
Qed.
End Shapes.

Section ShapeProps.
Context `{JsEngine} {S : Type} `{!IssueStore S, !IssueStoreSpec S}.
Implicit Types (s : S) (b : jsobj).

Lemma get_shape project q s :
  (get_handler project q s).1 <> NoReply ->
  exists w, on_wire (get_handler project q s).1 = Some w /\ reply_shape GET w = true.
Proof.
  unfold get_handler. destruct (st_find _ _) as [l|]; [|done]. intros _.
  destruct (Nat.eqb (length l) 0) eqn:E; cbn [fst on_wire]; [by eexists|].
  rewrite to_json_arr. eexists. split; [reflexivity|]. cbn [reply_shape].
  rewrite !length_map, E, !forallb_map. apply forallb_forall. intros d _.
  by destruct (issue_view_ok d) as (j & -> & Hj).
Qed.
Lemma post_shape now project b s :
  (post_handler now project b s).1 <> NoReply ->
  exists w, on_wire (post_handler now project b s).1 = Some w /\ reply_shape POST w = true.
Proof.
  unfold post_handler. destruct (_ || _ || _); [intros _; by eexists|].
  destruct (st_save _ _ _) as [[d s']|]; [intros _|done]. cbn [fst on_wire].
  destruct (issue_view_ok d) as (j & -> & Hj). eexists. split; [done|]. simpl. by rewrite Hj.
Qed.

Lemma message_ok_echo tag m msgs v :
  truthy v = true -> m ∈ msgs ->
  exists w, on_wire (Json (JObj [(tag, JStr m); ("_id", v)])) = Some w /\
    match w with WJson j => message_ok tag msgs true j = true | WText _ => False end.
Proof.
  intros Hv Hm. destruct (echo_ok tag m msgs v Hv Hm) as (j & Hj & Hok).
  exists (WJson j). split; [by cbn [on_wire]; rewrite Hj|done].
Qed.

Lemma put_shape now project b s :
  obj_wf b -> (put_handler now project b s).1 <> NoReply ->
  exists w, on_wire (put_handler now project b s).1 = Some w /\ reply_shape PUT w = true.
Proof.
  intros Hwf. unfold put_handler.
  destruct (truthy (obj_get b "_id")) eqn:Hid; [|intros _; by eexists]. simpl.
  destruct (_ && truthy _) eqn:Hone.
  { apply andb_true_iff in Hone as [_ Ht]. intros _. cbn [fst].
    destruct (message_ok_echo "error" "no update field(s) sent"
                ["no update field(s) sent"; "could not update"] _ Ht) as ([|j] & -> & Hj);
      [set_solver|done|]. eexists. split; [done|]. simpl. by rewrite Hj, !orb_true_r. }
  fold (put_patch project now b). rewrite put_patch_id, Hid by done.
  destruct (st_update _ _ _) as [[[u|] s']|]; [intros _..|done]; cbn [fst].
  - destruct (message_ok_echo "result" "successfully updated" ["successfully updated"] (JOid (_id u)))
      as ([|j] & -> & Hj); [done|set_solver|done|].
    eexists. split; [done|]. simpl. by rewrite Hj.
  - destruct (message_ok_echo "error" "could not update"
                ["no update field(s) sent"; "could not update"] (obj_get b "_id"))
      as ([|j] & -> & Hj); [done|set_solver|done|].
    eexists. split; [done|]. simpl. by rewrite Hj, !orb_true_r.
Qed.

Lemma delete_shape project b s :
  (delete_handler project b s).1 <> NoReply ->
  exists w, on_wire (delete_handler project b s).1 = Some w /\ reply_shape DELETE w = true.
Proof.
  unfold delete_handler. destruct (truthy (obj_get b "_id")) eqn:Hid; [|intros _; by eexists].
  simpl. destruct (st_delete _ _) as [[[u|] s']|]; [intros _..|done]; cbn [fst].
  - destruct (message_ok_echo "result" "successfully deleted" ["successfully deleted"] (obj_get b "_id"))
      as ([|j] & -> & Hj); [done|set_solver|done|].
    eexists. split; [done|]. simpl. by rewrite Hj.
  - destruct (message_ok_echo "error" "could not delete" ["could not delete"] (obj_get b "_id"))
      as ([|j] & -> & Hj); [done|set_solver|done|].
    eexists. split; [done|]. simpl. by rewrite Hj, !orb_true_r.
Qed.

(** C23: every reply the route sends has the form the specification's
    interface table gives its method: GET sends the text
    ['No issues found'] or a non-empty JSON array of issues, each with
    the nine members, a 24-digit hexadecimal [_id], string dates and a
    boolean [open]; POST sends an issue or
    [{error: 'required field(s) missing'}]; PUT and DELETE send
    [{result: ..., _id}], [{error: 'missing _id'}] or
    [{error: ..., _id}] with their own messages. *)
Theorem api_reply_shape now req s :
  req_wf req -> (api now req s).1 <> NoReply ->
  exists w, on_wire (api now req s).1 = Some w /\ reply_shape (req_method req) w = true.
Proof.
  intros [_ Hb]. unfold api.
  destruct (req_method req); [apply get_shape|apply post_shape|by apply put_shape|apply delete_shape].
Qed.
End ShapeProps.

(** ** Witnesses *)

Section Witnesses.
#[local] Existing Instance decimal_engine.
#[local] Existing Instances MemStore.mem_issue_store MemStore.mem_issue_store_spec.

Lemma w_store_inv : store_inv w_store.
Proof.
  split; [apply w_store_wf|]. apply map_Forall_singleton. split; [done|].
  unfold required_ok. simpl. done.
Qed.

(** A PUT closing the stored issue with the string ['false'] a form sends. *)
Definition w_close_req : request :=
  {| req_method := PUT; req_project := "apitest"; req_query := [];
     req_body := [("_id", JStr (oid_to_hex 1)); ("open", JStr "false")] |}.

Lemma api_answers_witness : (api 5 w_close_req w_store).1 <> NoReply.
Proof.
  apply api_answers; [apply w_store_inv|split; simpl; solve_obj_wf|done|vm_compute; reflexivity].
Defined.

Lemma api_reply_shape_witness :
  exists w, on_wire (api 5 w_close_req w_store).1 = Some w /\ reply_shape PUT w = true.
Proof.
  apply (api_reply_shape 5 w_close_req w_store);
    [split; simpl; solve_obj_wf|vm_compute; discriminate].
Defined.
End Witnesses.
