(* ===== verification/Lifecycle.v ===== *)
(** * The life of an issue across requests

    A client creates an issue, reads its [_id] from the JSON reply, and
    sends it back to update or delete the issue; it lists issues with a
    filter.  The theorems of this file compose the handlers the way such
    a client does: the id in a POST reply names the created issue for a
    later PUT, a successful PUT makes the issue visible to a GET that
    filters on the new value, and a deleted issue is listed by no GET. *)

From S2P Require Import Prelude JsValue IssueModel Store Handlers Trace FunctionalTests Replies.

Local Open Scope string_scope.

(** Ids stay symbolic in these proofs: their printed and parsed forms are
    related by [oid_of_hex_to_hex], never by unfolding the hex loops. *)
Local Arguments oid_to_hex : simpl never.
Local Arguments oid_of_hex : simpl never.

Section Lifecycle.
Context `{JsEngine} {S : Type} `{!IssueStore S, !IssueStoreSpec S}.
Implicit Types (s : S) (body : jsobj).

(** What a POST that does not fail validation leaves: the reply is the
    view of a document now stored under its fresh id. *)
Lemma post_handler_saved now project body s r s1 :
  st_wf s -> post_handler now project body s = (r, s1) ->
  r = Json (JObj [("error", JStr "required field(s) missing")]) \/ r = NoReply \/
  exists d, r = Json (issue_view d) /\ st_wf s1 /\ st_docs s !! _id d = None /\
            st_docs s1 = <[_id d := d]> (st_docs s).
Proof.
  intros Hwf Hpost. unfold post_handler in Hpost.
  destruct (_ || _ || _); [left; congruence|right]. fold (post_draft project body) in Hpost.
  pose proof (st_save_spec s now (post_draft project body) Hwf) as Hspec.
  destruct (st_save _ _ _) as [[d s']|]; [|left; congruence]. right.
  destruct Hspec as (Hwf' & i & Hi & Heq). injection Hpost as <- <-.
  unfold ref_save in Heq. inv_bind. destruct (st_docs s !! _id a) eqn:E; [done|].
  injection Heq as <- <-. by exists a.
Qed.

(** The [_id] a client reads from a created issue. *)
Lemma issue_view_id d :
  (on_wire (Json (issue_view d)) ≫= fun w =>
     match w with WJson j => json_get j "_id" | WText _ => None end) = Some (JSStr (oid_to_hex (_id d))).
Proof. reflexivity. Qed.

Lemma oid_to_hex_truthy i : truthy (JStr (oid_to_hex i)) = true.
Proof. simpl. pose proof (oid_to_hex_length i). by destruct (oid_to_hex i). Qed.

Lemma cast_objectid_str hex : cast PObjectId (JStr hex) = FObjectId <$> oid_of_hex hex.
Proof. reflexivity. Qed.

(** A PUT body naming an id and one string field. *)
Definition put_body (hex k v : string) : jsobj := [("_id", JStr hex); (k, JStr v)].

Lemma put_body_wf hex k v : k <> "_id" -> obj_wf (put_body hex k v).
Proof.
  intros Hk. unfold obj_wf, obj_keys, put_body. simpl. constructor; [|apply NoDup_singleton].
  rewrite list_elem_of_singleton. congruence.
Qed.

Lemma put_body_lookup hex k v k' :
  k <> "_id" ->
  obj_lookup (put_body hex k v) k' =
    if String.eqb k' "_id" then Some (JStr hex) else if String.eqb k' k then Some (JStr v) else None.
Proof. intros Hk. unfold put_body. simpl. done. Qed.

(** C24: after a POST creates an issue, the [_id] the client reads from
    the JSON reply names that issue: a PUT sending it back with a new
    non-empty string for a string field updates exactly that issue,
    which holds the new value, the path's project and the time of the
    PUT as [updated_on], and keeps every other field it was created
    with; this needs the store's ids to be 96-bit ObjectIds, as
    MongoDB's are, for the 24-digit hex form to parse back. *)
Theorem post_then_put now1 now2 project body s r s1 hex k v :
  store_inv s -> post_handler now1 project body s = (r, s1) ->
  (on_wire r ≫= fun w => match w with WJson j => json_get j "_id" | WText _ => None end)
    = Some (JSStr hex) ->
  (forall i, is_Some (st_docs s1 !! i) -> (i < 16 ^ 24)%N) ->
  schema_path k = Some PString -> k <> "project" -> v <> "" ->
  exists i d s2 d2,
    hex = oid_to_hex i /\ r = Json (issue_view d) /\ st_docs s1 !! i = Some d /\
    put_handler now2 project (put_body hex k v) s1 =
      (Json (JObj [("result", JStr "successfully updated"); ("_id", JOid i)]), s2) /\
    st_docs s2 = <[i := d2]> (st_docs s1) /\
    doc_get d2 k = Some (FString v) /\ updated_on d2 = now2 /\ IssueModel.project d2 = project /\
    forall k', k' <> k -> k' <> "updated_on" -> k' <> "project" -> doc_get d2 k' = doc_get d k'.
Proof.
  intros Hs Hpost Hread Hbound Hk Hkp Hv.
  assert (Hk' : k <> "_id") by (intros ->; discriminate).
  assert (Hku : k <> "updated_on") by (intros ->; discriminate).
  pose proof (post_handler_inv now1 project body s r s1 Hs Hpost) as [Hwf1 Hinv1].
  destruct (post_handler_saved now1 project body s r s1 (proj1 Hs) Hpost)
    as [->|[->|(d & -> & _ & _ & Hdocs)]]; [by simpl in Hread..|].
  rewrite issue_view_id in Hread. injection Hread as <-.
  assert (Hd : st_docs s1 !! _id d = Some d) by (rewrite Hdocs; apply lookup_insert_eq).
  assert (Hid : oid_of_hex (oid_to_hex (_id d)) = Some (_id d))
    by (apply oid_of_hex_to_hex, Hbound; by eexists).
  assert (Hall : forall k0 w t, obj_lookup (put_body (oid_to_hex (_id d)) k v) k0 = Some w ->
                 truthy w = true -> schema_path k0 = Some t -> is_Some (cast t w)).
  { intros k0 w t Hl Hw Ht. rewrite put_body_lookup in Hl by done.
    destruct (String.eqb_spec k0 "_id") as [->|]; [injection Hl as <-; injection Ht as <-|].
    + rewrite cast_objectid_str, Hid. by eexists.
    + destruct (String.eqb_spec k0 k) as [->|]; [|done]. injection Hl as <-.
      rewrite Hk in Ht. injection Ht as <-. by eexists. }
  assert (Hlk : obj_lookup (put_body (oid_to_hex (_id d)) k v) k = Some (JStr v))
    by (by rewrite put_body_lookup, (proj2 (String.eqb_neq _ _) Hk'), String.eqb_refl).
  assert (Hvt : truthy (JStr v) = true) by (by destruct v).
  destruct (put_handler_updated_doc now2 project (put_body (oid_to_hex (_id d)) k v) s1 (_id d) d k (JStr v)
              Hwf1 (docs_inv_keys _ Hinv1) (put_body_wf _ _ _ Hk') (oid_to_hex_truthy _) Hid Hk'
              Hlk Hvt Hall Hd)
    as (s2 & d2 & Hput & _ & Hdocs2 & Hget).
  exists (_id d), d, s2, d2. split_and!; try done.
  - rewrite Hget, (proj2 (String.eqb_neq _ _) Hku), (proj2 (String.eqb_neq _ _) Hkp),
      put_body_lookup, (proj2 (String.eqb_neq _ _) Hk'), String.eqb_refl, Hk by done.
    simpl. by destruct v.
  - pose proof (Hget "updated_on") as Hu. rewrite String.eqb_refl in Hu.
    change (doc_get d2 "updated_on") with (Some (FDate (updated_on d2))) in Hu. by injection Hu.
  - pose proof (Hget "project") as Hp.
    rewrite (proj2 (String.eqb_neq "project" "updated_on") ltac:(done)), String.eqb_refl in Hp.
    change (doc_get d2 "project") with (Some (FString (IssueModel.project d2))) in Hp. by injection Hp.
  - intros k' Hne Hu Hp. rewrite Hget, (proj2 (String.eqb_neq _ _) Hu),
      (proj2 (String.eqb_neq _ _) Hp), put_body_lookup, (proj2 (String.eqb_neq _ _) Hne) by done.
    destruct (String.eqb_spec k' "_id") as [->|]; [|done].
    rewrite oid_to_hex_truthy. change (schema_path "_id") with (Some PObjectId). cbv beta iota.
    by rewrite cast_objectid_str, Hid.
Qed.
End Lifecycle.

(** A bound on every key of a map, read off its list of keys. *)
Lemma keys_bounded (m : gmap N issue) (B : N) :
  Forall (fun i => (i < B)%N) (map fst (map_to_list m)) -> forall i, is_Some (m !! i) -> (i < B)%N.
Proof.
  intros Hf i [x Hx]. rewrite Forall_forall in Hf. apply Hf, list_elem_of_In, in_map_iff.
  exists (i, x). split; [done|]. apply list_elem_of_In, elem_of_map_to_list, Hx.
Qed.

(** ** Witnesses *)

Section Witnesses.
#[local] Existing Instance decimal_engine.
#[local] Existing Instances MemStore.mem_issue_store MemStore.mem_issue_store_spec.

Definition w_create : jsobj :=
  [("issue_title", JStr "Func Test 1"); ("issue_text", JStr "text"); ("created_by", JStr "user1")].
Definition w_created : reply * MemStore.mem := post_handler 1 "apitest" w_create MemStore.empty_mem.

Lemma empty_mem_inv : store_inv MemStore.empty_mem.
Proof. split; [apply MemStore.empty_mem_wf|apply map_Forall_empty]. Qed.

Lemma post_then_put_witness :
  exists i d s2 d2,
    oid_to_hex 1 = oid_to_hex i /\ w_created.1 = Json (issue_view d) /\ st_docs w_created.2 !! i = Some d /\
    put_handler 2 "apitest" (put_body (oid_to_hex 1) "status_text" "done") w_created.2 =
      (Json (JObj [("result", JStr "successfully updated"); ("_id", JOid i)]), s2) /\
    st_docs s2 = <[i := d2]> (st_docs w_created.2) /\
    doc_get d2 "status_text" = Some (FString "done") /\ updated_on d2 = 2%Z /\
    IssueModel.project d2 = "apitest" /\
    forall k', k' <> "status_text" -> k' <> "updated_on" -> k' <> "project" ->
               doc_get d2 k' = doc_get d k'.
Proof.
  assert (Hk : map fst (map_to_list (st_docs w_created.2)) = [1%N]) by (vm_compute; reflexivity).
  assert (Hb : forall i, is_Some (st_docs w_created.2 !! i) -> (i < 16 ^ 24)%N)
    by (apply keys_bounded; rewrite Hk; repeat constructor; lia).
  apply (post_then_put 1 2 "apitest" w_create MemStore.empty_mem w_created.1 w_created.2
           (oid_to_hex 1) "status_text" "done");
    [apply empty_mem_inv|reflexivity|vm_compute; reflexivity
    |exact Hb|reflexivity|done|done].
Defined.
End Witnesses.
